(** * Time Tracker: session state machine and statistics engine

    A shallow embedding of the logic of the [App] component (the part of
    [src/README.md] from line 232 on), of the type declarations (the part
    of [src/src/components/Timer.tsx] from line 199 on), of the completion
    effect and the notes box of [src/src/components/Timer.tsx], of
    [src/src/components/Statistics.tsx] and of the form of
    [src/src/components/Settings.tsx]. Line numbers in the comments are
    those of these files.

    Conventions of the embedding.
    - A [Date] is the instant it denotes, in epoch milliseconds (what
      [getTime()] returns); [new Date(d)] of a date is that same instant.
    - Durations and elapsed time are whole seconds (the tick adds 1 to an
      integer), kept as [Z]; the productivity score, which divides them,
      is computed on binary64 floats ([PrimFloat]) as JavaScript does.
    - The React state of [App] is a record; a handler runs against the
      values of the render that created it and queues state updates, which
      are applied in order afterwards ([App.commit]). *)

From Stdlib Require Import ZArith List String Ascii Bool Lia.
From Stdlib Require Import Floats Uint63 DecimalString.
From Stdlib Require Import Permutation Sorted.
From Stdlib Require QArith Qround Qminmax.
Import ListNotations.
Local Open Scope string_scope.
Local Open Scope list_scope.
Local Open Scope Z_scope.

(** ** Data model (the type declarations, [Timer.tsx] lines 199-232) *)

Module Types.

Definition Date := Z.

Record TimeEntry := mkTimeEntry {
  id : Z;
  startTime : Date;
  endTime : option Date;
  duration : Z;
  type : string;
  notes : string;
  userId : option string
}.

Record AppSettings := mkAppSettings {
  workDuration : Z;
  breakDuration : Z;
  autoStartBreaks : bool;
  autoStartWork : bool;
  notifications : bool;
  darkMode : bool;
  settingsUserId : option string
}.

Record DailyStats := mkDailyStats {
  date : string;
  totalWorkTime : Z;
  totalBreakTime : Z;
  sessions : nat
}.

End Types.

(** ** The JavaScript operations the code calls *)

Module JS.

(** The Number of an integer: exact below 2^53. *)
Definition Z2F (z : Z) : float :=
  if 0 <=? z then PrimFloat.of_uint63 (Uint63.of_Z z)
  else PrimFloat.opp (PrimFloat.of_uint63 (Uint63.of_Z (- z))).

(** [Math.round]: the nearest integer, a tie going up. It is computed on
    the exact value [n * 2^e] of the float; NaN and the infinities, which
    no caller below passes, are sent to 0. *)
Definition Math_round (x : float) : Z :=
  match Prim2SF x with
  | S754_finite s m e =>
      let n := if s then Z.neg m else Z.pos m in
      if 0 <=? e then n * 2 ^ e else (n + 2 ^ (- e - 1)) / 2 ^ (- e)
  | _ => 0
  end.

Definition isNaN (x : float) : bool := negb (PrimFloat.eqb x x).

(** [Math.min] and [Math.max] of two numbers, NaN if either is NaN. The
    callers below pass the constant 50 as second argument, so the order
    of the two zeros never matters. *)
Definition Math_min (x y : float) : float :=
  if isNaN x || isNaN y then nan else if PrimFloat.ltb x y then x else y.

Definition Math_max (x y : float) : float :=
  if isNaN x || isNaN y then nan else if PrimFloat.ltb y x then x else y.

(** [Math.round(seconds / 60)] at a whole number of seconds: the quotient
    is within 2^-53 of the exact one, and an exact tie [k + 1/2] is
    itself a float, so the result is the floor of [seconds/60 + 1/2]. *)
Definition roundMinutes (seconds : Z) : Z := (seconds + 30) / 60.

(** Whether [roundMinutes] returns what [Math.round(seconds / 60)] does
    on floats, at each of [count] durations from [seconds] on. *)
Fixpoint agreeFrom (seconds : Z) (count : nat) : bool :=
  match count with
  | O => true
  | S count' =>
      (Math_round (Z2F seconds / 60)%float =? roundMinutes seconds)
      && agreeFrom (seconds + 1) count'
  end.

(** The string of an integer Number, as [Array.prototype.join] writes it. *)
Definition numberToString (n : Z) : string := NilZero.string_of_int (Z.to_int n).

(** [s.replace(/,/g, ';')] *)
Definition semicolonForComma (c : ascii) : ascii :=
  if Ascii.eqb c "," then ";"%char else c.

Fixpoint replaceCommas (s : string) : string :=
  match s with
  | EmptyString => EmptyString
  | String c rest => String (semicolonForComma c) (replaceCommas rest)
  end.

(** [xs.join(sep)] *)
Fixpoint join (sep : string) (xs : list string) : string :=
  match xs with
  | [] => ""
  | [x] => x
  | x :: rest => x ++ sep ++ join sep rest
  end.

End JS.

(** ** Statistics engine ([Statistics.tsx]) *)

Module Statistics.
Import Types JS.

Inductive TimeRange := Today | Week | Month | All.

(** The three instants that [stats] derives from [new Date()] with the
    local calendar: midnight of today, of the first day of this week and
    of the first day of this month. *)
Record Boundaries := mkBoundaries {
  today : Date;
  startOfWeek : Date;
  startOfMonth : Date
}.

Definition isWork (entry : TimeEntry) : bool := String.eqb (type entry) "work".
Definition isShortBreak (entry : TimeEntry) : bool := String.eqb (type entry) "shortBreak".
Definition isLongBreak (entry : TimeEntry) : bool := String.eqb (type entry) "longBreak".

(** [xs.reduce((total, entry) => total + entry.duration, 0)] *)
Definition sumDuration (xs : list TimeEntry) : Z :=
  fold_left (fun total entry => total + duration entry) xs 0.

(** The time-range filter (lines 49-63). *)
Definition rangeFilter (b : Boundaries) (timeRange : TimeRange)
    (timeEntries : list TimeEntry) : list TimeEntry :=
  match timeRange with
  | Today => filter (fun entry => startTime entry >=? today b) timeEntries
  | Week => filter (fun entry => startTime entry >=? startOfWeek b) timeEntries
  | Month => filter (fun entry => startTime entry >=? startOfMonth b) timeEntries
  | All => timeEntries
  end.

(** The break-visibility filter (lines 66-68). *)
Definition displayFilter (showBreaks : bool) (filteredEntries : list TimeEntry)
    : list TimeEntry :=
  if showBreaks then filteredEntries else filter isWork filteredEntries.

(** [acc[date].push(entry)], creating the key at the end when it is new:
    the object's keys keep their insertion order. *)
Fixpoint pushDay (d : string) (entry : TimeEntry)
    (acc : list (string * list TimeEntry)) : list (string * list TimeEntry) :=
  match acc with
  | [] => [(d, [entry])]
  | (k, es) :: rest =>
      if String.eqb k d then (k, es ++ [entry]) :: rest
      else (k, es) :: pushDay d entry rest
  end.

(** [dailyStats.reduce((prev, current) =>
      prev.totalWorkTime > current.totalWorkTime ? prev : current)],
    [null] on the empty array (lines 122-126). *)
Definition moreProductive (prev current : DailyStats) : DailyStats :=
  if Types.totalWorkTime prev >? Types.totalWorkTime current then prev else current.

Definition mostProductive (dailyStats : list DailyStats) : option DailyStats :=
  match dailyStats with
  | [] => None
  | first :: rest => Some (fold_left moreProductive rest first)
  end.

(** The tie rule in the words of the specification: the first day, in
    iteration order, whose work time is maximal. *)
Fixpoint firstMaximalDay (dailyStats : list DailyStats) : option DailyStats :=
  match dailyStats with
  | [] => None
  | d :: rest =>
      match firstMaximalDay rest with
      | None => Some d
      | Some best =>
          if Types.totalWorkTime d >=? Types.totalWorkTime best then Some d else Some best
      end
  end.

(** The snapshot the [stats] memo returns. Its two totals carry the names
    of the per-day totals of [DailyStats]; from here on the bare names are
    the snapshot's and the per-day ones are written [Types.totalWorkTime]
    and [Types.totalBreakTime]. *)
Record Stats := mkStats {
  totalWorkTime : Z;
  totalBreakTime : Z;
  workSessions : nat;
  shortBreaks : nat;
  longBreaks : nat;
  dailyStats : list DailyStats;
  filteredEntries : list TimeEntry;
  mostProductiveDay : option DailyStats
}.

Section Engine.
(** [formatDate] of [utils/timeUtils] (the grouping key of a day) and
    the instant [new Date(key).getTime()] reads back from such a key.
    Keys are taken not to look like array indices, so that [Object.keys]
    lists them in insertion order, and to be readable as dates. *)
Variable formatDate : Date -> string.
Variable dateValue : string -> Z.

Definition entriesByDay (displayedEntries : list TimeEntry)
    : list (string * list TimeEntry) :=
  fold_left (fun acc entry => pushDay (formatDate (startTime entry)) entry acc)
            displayedEntries [].

Definition dayStats (day : string * list TimeEntry) : DailyStats :=
  let entries := snd day in
  {| date := fst day;
     Types.totalWorkTime := sumDuration (filter isWork entries);
     Types.totalBreakTime :=
       sumDuration (filter (fun entry => isShortBreak entry || isLongBreak entry) entries);
     sessions := List.length (filter isWork entries) |}.

(** [dailyStats.sort((a, b) => new Date(b.date).getTime() -
    new Date(a.date).getTime())]: the sort is stable, so it is the
    insertion of each element before the first one it does not have to
    follow. *)
Definition compareDays (a b : DailyStats) : Z :=
  dateValue (date b) - dateValue (date a).

Fixpoint insertDay (a : DailyStats) (sorted : list DailyStats) : list DailyStats :=
  match sorted with
  | [] => [a]
  | b :: rest =>
      if compareDays a b <=? 0 then a :: b :: rest else b :: insertDay a rest
  end.

Definition sortDays (days : list DailyStats) : list DailyStats :=
  fold_right insertDay [] days.

(** The [stats] memo (lines 41-128). *)
Definition stats (b : Boundaries) (timeEntries : list TimeEntry)
    (timeRange : TimeRange) (showBreaks : bool) : Stats :=
  let filtered := rangeFilter b timeRange timeEntries in
  let displayedEntries := displayFilter showBreaks filtered in
  let days := sortDays (map dayStats (entriesByDay displayedEntries)) in
  {| totalWorkTime := sumDuration (filter isWork filtered);
     totalBreakTime :=
       sumDuration (filter (fun entry => isShortBreak entry || isLongBreak entry) filtered);
     workSessions := List.length (filter isWork filtered);
     shortBreaks := List.length (filter isShortBreak filtered);
     longBreaks := List.length (filter isLongBreak filtered);
     dailyStats := days;
     filteredEntries := displayedEntries;
     mostProductiveDay := mostProductive days |}.

(** [exportToCSV] (lines 20-38): the rows, and the text handed to
    [saveAs]. [toLocaleTimeString] is the browser's rendering of the
    time of day. *)
Variable toLocaleTimeString : Date -> string.

Definition headers : list string :=
  ["Date"; "Start Time"; "End Time"; "Duration (minutes)"; "Type"; "Notes"].

Definition csvRow (entry : TimeEntry) : list string :=
  [ formatDate (startTime entry);
    toLocaleTimeString (startTime entry);
    match endTime entry with
    | Some e => toLocaleTimeString e
    | None => ""
    end;
    numberToString (roundMinutes (duration entry));
    type entry;
    replaceCommas (notes entry) ].

Definition csvData (timeEntries : list TimeEntry) : list (list string) :=
  map csvRow timeEntries.

Definition exportToCSV (timeEntries : list TimeEntry) : string :=
  join (String (ascii_of_nat 10) "")
       (join "," headers :: map (join ",") (csvData timeEntries)).

End Engine.

(** [productivityScore] (lines 131-150), on the two totals as Numbers. *)
Definition workBreakRatio (W B : float) : float :=
  if (0 <? B)%float then (W / B)%float
  else if (0 <? W)%float then 100%float else 0%float.

Definition scoreOfTotals (W B : float) : Z :=
  if ((W =? 0) && (B =? 0))%float then 0
  else
    let workBreakRatio := workBreakRatio W B in
    let score :=
      if ((4 <=? workBreakRatio) && (workBreakRatio <=? 6))%float then 100%float
      else if (6 <? workBreakRatio)%float then
        (100 - Math_min (((workBreakRatio - 6) / 4) * 100) 50)%float
      else if ((workBreakRatio <? 4) && (0 <? workBreakRatio))%float then
        Math_max ((workBreakRatio / 4) * 100)%float 50%float
      else 0%float in
    Math_round score.

Definition productivityScore (stats : Stats) : Z :=
  scoreOfTotals (Z2F (totalWorkTime stats)) (Z2F (totalBreakTime stats)).

End Statistics.

(** ** The productivity score of the specification, in exact arithmetic *)

Module ExactScore.
Import QArith Qround Qminmax.
Import Types JS Statistics.
Local Open Scope Q_scope.













End ExactScore.

(** ** The application state and its handlers ([App], [README.md] lines 240-391) *)

Module App.
Import Types.

Inductive Tab := timer | statistics | settingsTab.

(** The [useState] cells of [App]. *)
Record State := mkState {
  activeTab : Tab;
  isRunning : bool;
  currentSession : option TimeEntry;
  userId : string;
  timeEntries : list TimeEntry;
  elapsedTime : Z;
  settings : AppSettings
}.

(** A queued call of a state setter. [setTimeEntries], [setElapsedTime]
    and [setSettings] are also called with an updater function, so all
    three carry one; a plain value is the constant updater. *)
Inductive Update :=
| setActiveTab (tab : Tab)
| setIsRunning (value : bool)
| setCurrentSession (value : option TimeEntry)
| setTimeEntries (updater : list TimeEntry -> list TimeEntry)
| setElapsedTime (updater : Z -> Z)
| setSettings (updater : AppSettings -> AppSettings).

Definition applyUpdate (st : State) (u : Update) : State :=
  match u with
  | setActiveTab tab =>
      mkState tab (isRunning st) (currentSession st) (userId st)
              (timeEntries st) (elapsedTime st) (settings st)
  | setIsRunning value =>
      mkState (activeTab st) value (currentSession st) (userId st)
              (timeEntries st) (elapsedTime st) (settings st)
  | setCurrentSession value =>
      mkState (activeTab st) (isRunning st) value (userId st)
              (timeEntries st) (elapsedTime st) (settings st)
  | setTimeEntries updater =>
      mkState (activeTab st) (isRunning st) (currentSession st) (userId st)
              (updater (timeEntries st)) (elapsedTime st) (settings st)
  | setElapsedTime updater =>
      mkState (activeTab st) (isRunning st) (currentSession st) (userId st)
              (timeEntries st) (updater (elapsedTime st)) (settings st)
  | setSettings updater =>
      mkState (activeTab st) (isRunning st) (currentSession st) (userId st)
              (timeEntries st) (elapsedTime st) (updater (settings st))
  end.

(** The queue of one handler run is applied in order; the next render
    sees the result. *)
Definition commit (st : State) (queue : list Update) : State :=
  fold_left applyUpdate queue st.

(** *** Persistence: the two lazy initializers ([README.md] lines 248-264) *)

(** What evaluating an initializer does: it returns a value, or the
    [SyntaxError] of [JSON.parse] leaves it (nothing catches it). *)
Inductive Outcome (A : Type) :=
| Returned (value : A)
| Thrown.
Arguments Returned {A} value.
Arguments Thrown {A}.

Section Initializers.
(** [JSON.parse] at the type the code casts its result to; [None] when
    it throws. *)
Context {A : Type} (JSON_parse : string -> option A).

(** [saved ? JSON.parse(saved) : fallback], where [saved] is what
    [localStorage.getItem] returned: [null] and the empty string are
    falsy. *)
Definition parseOr (fallback : A) (saved : option string) : Outcome A :=
  match saved with
  | None => Returned fallback
  | Some EmptyString => Returned fallback
  | Some text =>
      match JSON_parse text with
      | Some value => Returned value
      | None => Thrown
      end
  end.
End Initializers.

Definition initialTimeEntries (JSON_parse : string -> option (list TimeEntry))
    (saved : option string) : Outcome (list TimeEntry) :=
  parseOr JSON_parse [] saved.

Definition defaultSettings (prefersDark : bool) (userId : string) : AppSettings :=
  {| workDuration := 25 * 60;
     breakDuration := 5 * 60;
     autoStartBreaks := false;
     autoStartWork := false;
     notifications := true;
     darkMode := prefersDark;
     settingsUserId := Some userId |}.

Definition initialSettings (JSON_parse : string -> option AppSettings)
    (prefersDark : bool) (userId : string) (saved : option string)
    : Outcome AppSettings :=
  parseOr JSON_parse (defaultSettings prefersDark userId) saved.

(** The first render: the timer tab, nothing running, no session. *)
Definition initialState (userId : string) (timeEntries : list TimeEntry)
    (settings : AppSettings) : State :=
  mkState timer false None userId timeEntries 0 settings.

(** *** Handlers ([README.md] lines 307-391)

    Each takes the render [r] whose values it closed over, and the clock
    reading [now] of the moment it runs ([Date.now()], [new Date()]). *)

Definition newEntry (r : State) (now : Date) (kind : string) : TimeEntry :=
  {| id := now;
     startTime := now;
     endTime := None;
     duration := 0;
     type := kind;
     notes := "";
     Types.userId := Some (userId r) |}.

Definition startTimer (r : State) (now : Date) : list Update :=
  if negb (isRunning r) then
    setIsRunning true ::
    match currentSession r with
    | None => [setCurrentSession (Some (newEntry r now "work"))]
    | Some _ => []
    end
  else [].

Definition pauseTimer : list Update := [setIsRunning false].

(** [{...currentSession, endTime, duration: elapsedTime}] *)
Definition finalize (session : TimeEntry) (now : Date) (elapsed : Z) : TimeEntry :=
  {| id := id session;
     startTime := startTime session;
     endTime := Some now;
     duration := elapsed;
     type := type session;
     notes := notes session;
     Types.userId := Types.userId session |}.

Definition stopTimer (r : State) (now : Date) : list Update :=
  match currentSession r with
  | Some session =>
      let updatedSession := finalize session now (elapsedTime r) in
      [ setTimeEntries (fun prev => prev ++ [updatedSession]);
        setCurrentSession None;
        setElapsedTime (fun _ => 0);
        setIsRunning false ]
  | None => []
  end.

Definition resetTimer : list Update :=
  [ setIsRunning false; setElapsedTime (fun _ => 0); setCurrentSession None ].

Definition startBreak (r : State) (now : Date) : list Update :=
  stopTimer r now ++
  [ setCurrentSession (Some (newEntry r now "break"));
    setElapsedTime (fun _ => 0);
    setIsRunning true ].

Definition withUserId (s : AppSettings) (owner : string) : AppSettings :=
  {| workDuration := workDuration s;
     breakDuration := breakDuration s;
     autoStartBreaks := autoStartBreaks s;
     autoStartWork := autoStartWork s;
     notifications := notifications s;
     darkMode := darkMode s;
     settingsUserId := Some owner |}.

Definition updateSettings (r : State) (newSettings : AppSettings) : list Update :=
  [ setSettings (fun _ => withUserId newSettings (userId r)) ].

Definition toggleDarkMode : list Update :=
  [ setSettings (fun prev =>
      {| workDuration := workDuration prev;
         breakDuration := breakDuration prev;
         autoStartBreaks := autoStartBreaks prev;
         autoStartWork := autoStartWork prev;
         notifications := notifications prev;
         darkMode := negb (darkMode prev);
         settingsUserId := settingsUserId prev |}) ].

Definition addNoteToCurrentSession (r : State) (note : string) : list Update :=
  match currentSession r with
  | Some session =>
      [ setCurrentSession (Some
          {| id := id session;
             startTime := startTime session;
             endTime := endTime session;
             duration := duration session;
             type := type session;
             notes := note;
             Types.userId := Types.userId session |}) ]
  | None => []
  end.

(** [confirmed] is the answer of [window.confirm]. *)
Definition clearStatistics (confirmed : bool) : list Update :=
  if confirmed then [ setTimeEntries (fun _ => []) ] else [].

(** The interval callback ([README.md] lines 291-305); the interval
    exists only while [isRunning]. *)
Definition tick (r : State) : list Update :=
  if isRunning r then [ setElapsedTime (fun prevTime => prevTime + 1) ] else [].

(** The entries handed to [Statistics] ([README.md] line 498). *)
Definition statisticsEntries (r : State) : list TimeEntry :=
  filter (fun entry =>
            match Types.userId entry with
            | Some owner => String.eqb owner (userId r)
            | None => false
            end)
         (timeEntries r).

End App.

(** ** The completion effect of the timer view ([Timer.tsx] lines 45-86) *)

Module Timer.
Import Types App.

(** The notification changes no state and is left out. The three
    handlers are props of the same render [r], so each of them reads the
    values of [r], whatever the others have queued. *)
Definition completionEffect (r : State) (now : Date) : list Update :=
  match currentSession r with
  | None => []
  | Some session =>
      if negb (isRunning r) then []
      else
        let targetDuration :=
          if String.eqb (type session) "work"
          then workDuration (settings r)
          else breakDuration (settings r) in
        if elapsedTime r >=? targetDuration then
          if String.eqb (type session) "work" && autoStartBreaks (settings r) then
            stopTimer r now ++ startBreak r now
          else if String.eqb (type session) "break" && autoStartWork (settings r) then
            stopTimer r now ++ startTimer r now
          else
            stopTimer r now
        else []
  end.

End Timer.

(** ** The machine: one event, then the effects it triggers *)

Module Machine.
Import Types App Timer.

Inductive Event :=
| Start
| Pause
| Stop
| Reset
| Break
| AddNote (note : string)
| Tick
| SelectTab (tab : Tab)
| UpdateSettings (newSettings : AppSettings)
| ToggleDarkMode
| ClearStatistics (confirmed : bool).

Definition handle (r : State) (now : Date) (e : Event) : list Update :=
  match e with
  | Start => startTimer r now
  | Pause => pauseTimer
  | Stop => stopTimer r now
  | Reset => resetTimer
  | Break => startBreak r now
  | AddNote note => addNoteToCurrentSession r note
  | Tick => tick r
  | SelectTab tab => [setActiveTab tab]
  | UpdateSettings newSettings => updateSettings r newSettings
  | ToggleDarkMode => toggleDarkMode
  | ClearStatistics confirmed => clearStatistics confirmed
  end.

(** After a render the completion effect runs if the timer view is
    mounted; a run that queues updates causes a render, after which it
    runs again. *)
Fixpoint runEffects (fuel : nat) (now : Date) (st : State) : State :=
  match fuel with
  | O => st
  | S fuel' =>
      match activeTab st with
      | timer =>
          match completionEffect st now with
          | [] => st
          | queue => runEffects fuel' now (commit st queue)
          end
      | _ => st
      end
  end.

(** Two runs always reach a state in which the effect queues nothing
    ([effects_settle] below). *)
Definition step (st : State) (now : Date) (e : Event) : State :=
  runEffects 2 now (commit st (handle st now e)).

Inductive reachable (init : State) : State -> Prop :=
| reachable_init : reachable init init
| reachable_step st now e : reachable init st -> reachable init (step st now e).

Definition isInitial (st : State) : Prop :=
  exists userId timeEntries settings, st = initialState userId timeEntries settings.

(** Idle, running, paused: the three states of the session machine. *)
Inductive Phase := Idle | Running | Paused.

Definition phase (st : State) : Phase :=
  match currentSession st with
  | None => Idle
  | Some _ => if isRunning st then Running else Paused
  end.

(** The current session is absent, and then nothing runs and no time has
    elapsed, or it is an entry that has not ended. *)
Definition sessionInvariant (st : State) : Prop :=
  match currentSession st with
  | None => isRunning st = false /\ elapsedTime st = 0
  | Some session => endTime session = None
  end.

Definition finalized (entry : TimeEntry) : Prop := endTime entry <> None.

(** The two types the handlers write. *)
Definition machineTyped (entry : TimeEntry) : Prop :=
  type entry = "work" \/ type entry = "break".

Definition typedState (st : State) : Prop :=
  Forall machineTyped (timeEntries st) /\
  match currentSession st with
  | None => True
  | Some session => machineTyped session
  end.

End Machine.

(** ** Sample values used by the closed lemmas *)

Module Samples.
Import Types JS Statistics App Machine.

(** Stand-ins for [formatDate], for reading a key back, and for
    [toLocaleTimeString], none of which is under [src/]: the day number,
    its first instant, and the second of the day. *)
Definition msPerDay : Z := 86400000.

Definition dayKey (t : Date) : string := "day " ++ numberToString (t / msPerDay).

Definition keyInstant (key : string) : Z :=
  match key with
  | String _ (String _ (String _ (String _ digits))) =>
      match NilZero.int_of_string digits with
      | Some n => Z.of_int n * msPerDay
      | None => 0
      end
  | _ => 0
  end.

Definition clockText (t : Date) : string := numberToString ((t mod msPerDay) / 1000).

(** Two days with the same work time, the newer one first. *)
Definition newerDay : DailyStats :=
  {| date := "day 20001"; Types.totalWorkTime := 1500; Types.totalBreakTime := 0; sessions := 1 |}.
Definition olderDay : DailyStats :=
  {| date := "day 20000"; Types.totalWorkTime := 1500; Types.totalBreakTime := 0; sessions := 1 |}.

(** Day 20001 is today; one work session of 25 minutes from the day
    before, with a comma in its notes. *)
Definition bounds : Boundaries :=
  {| today := 20001 * msPerDay;
     startOfWeek := 19998 * msPerDay;
     startOfMonth := 19990 * msPerDay |}.

Definition yesterdayEntry : TimeEntry :=
  {| id := 20000 * msPerDay + 3600000;
     startTime := 20000 * msPerDay + 3600000;
     endTime := Some (20000 * msPerDay + 5100000);
     duration := 1500;
     type := "work";
     notes := "draft, review";
     Types.userId := Some "u1" |}.



(** A parser that accepts the text of the empty array and nothing else,
    and a stored text that is not JSON ([JSON.parse] throws on it). *)
Definition parseEmptyArrayOnly (text : string) : option (list TimeEntry) :=
  if String.eqb text "[]" then Some [] else None.

Definition corruptText : string := "{oops".

(** Work sessions of 25 minutes, breaks of 5, breaks started
    automatically. *)
Definition autoBreakSettings : AppSettings :=
  {| workDuration := 1500;
     breakDuration := 300;
     autoStartBreaks := true;
     autoStartWork := false;
     notifications := false;
     darkMode := false;
     settingsUserId := Some "u1" |}.

Definition freshState : State := initialState "u1" [] autoBreakSettings.

(** A work session started at instant 0, one tick short of its target,
    with the timer view open. *)
Definition workSession : TimeEntry := newEntry freshState 0 "work".

Definition almostDone : State :=
  mkState timer true (Some workSession) "u1" [] 1499 autoBreakSettings.

(** [count] ticks in a row. *)
Fixpoint ticks (count : nat) (now : Date) (st : State) : State :=
  match count with
  | O => st
  | S count' => ticks count' now (step st now Tick)
  end.

(** A break that has reached its 5 minutes, work being started
    automatically. *)
Definition autoWorkSettings : AppSettings :=
  {| workDuration := 1500;
     breakDuration := 300;
     autoStartBreaks := false;
     autoStartWork := true;
     notifications := false;
     darkMode := false;
     settingsUserId := Some "u1" |}.

Definition breakAlmostOver : State :=
  mkState timer true (Some (newEntry freshState 0 "break")) "u1" [] 299 autoWorkSettings.

Definition doneAt : Date := 1500000.

Definition finishedWork : TimeEntry := finalize workSession doneAt 1500.

(** A break taken from the first render and stopped after two ticks. *)
Definition afterOneBreak : State :=
  step (step (step (step freshState 0 Break) 1000 Tick) 2000 Tick) 2000 Stop.

End Samples.

(** ** Arrays: the stable sort with a comparison function *)

Module Arrays.

Section Sort.
Context {A : Type} (compareFn : A -> A -> Z).

(** [xs.sort(compareFn)] is stable: an element goes before the first one
    it does not have to follow, and after the ones it compares equal to
    that were before it in the array. *)
Fixpoint insertSorted (a : A) (sorted : list A) : list A :=
  match sorted with
  | [] => [a]
  | b :: rest =>
      if compareFn a b <=? 0 then a :: b :: rest else b :: insertSorted a rest
  end.

Definition sortWith (xs : list A) : list A := fold_right insertSorted [] xs.

End Sort.

(** Keys in descending order: no later element has a larger key. *)
Definition descendingBy {A : Type} (key : A -> Z) : list A -> Prop :=
  StronglySorted (fun a b => key b <= key a).

End Arrays.

(** ** What the statistics view renders ([Statistics.tsx] lines 330-586) *)

Module Views.
Import Types JS Statistics Arrays.

(** The session list of the sessions tab (lines 494-495):
    [stats.filteredEntries.sort((a, b) => new Date(b.startTime).getTime() -
    new Date(a.startTime).getTime())]. *)
Definition sessionList (s : Stats) : list TimeEntry :=
  sortWith (fun a b => startTime b - startTime a) (filteredEntries s).

(** A row of the daily table is highlighted when
    [day.date === stats.mostProductiveDay?.date] (lines 414 and 422). *)
Definition highlighted (s : Stats) (day : DailyStats) : bool :=
  match mostProductiveDay s with
  | Some best => String.eqb (date day) (date best)
  | None => false
  end.

(** The entries of the day with key [k]. *)
Definition onDay (formatDate : Date -> string) (k : string) (entry : TimeEntry) : bool :=
  String.eqb (formatDate (startTime entry)) k.

(** What the groups of [entriesByDay] are once the entries [seen] have
    been pushed: one group per day, holding the entries of that day in
    order, and a group for the day of every entry. *)
Definition grouped (formatDate : Date -> string)
    (acc : list (string * list TimeEntry)) (seen : list TimeEntry) : Prop :=
  NoDup (map fst acc) /\
  Forall (fun g => snd g = filter (onDay formatDate (fst g)) seen /\ snd g <> []) acc /\
  (forall entry, In entry seen -> In (formatDate (startTime entry)) (map fst acc)).

(** The test behind each time range (lines 51-63); every entry passes
    the test of 'all'. *)
Definition inRange (b : Boundaries) (timeRange : TimeRange) (entry : TimeEntry) : bool :=
  match timeRange with
  | Today => startTime entry >=? today b
  | Week => startTime entry >=? startOfWeek b
  | Month => startTime entry >=? startOfMonth b
  | All => true
  end.

(** One range is at least as wide as another when it starts no later. *)
Definition widerThan (b : Boundaries) (wide narrow : TimeRange) : Prop :=
  forall entry, inRange b narrow entry = true -> inRange b wide entry = true.

(** The sum of a column of the daily table. *)
Definition total (column : list Z) : Z := fold_right Z.add 0 column.

(** The colour of the score bar (lines 361-362). *)
Definition scoreColour (score : Z) : string :=
  if score >=? 80 then "bg-green-500"
  else if score >=? 60 then "bg-yellow-500"
  else "bg-red-500".

End Views.

(** ** Runs of the machine *)

Module Traces.
Import Types App Timer Machine.

(** The events of a run, each with the clock reading at which it happens,
    taken one after the other. *)
Definition run (st : State) (trace : list (Date * Event)) : State :=
  fold_left (fun s timed => step s (fst timed) (snd timed)) trace st.

(** One tick at each of the given instants. *)
Definition ticksAt (times : list Date) : list (Date * Event) :=
  map (fun t => (t, Tick)) times.

(** [targetDuration] of the completion effect ([Timer.tsx] lines 48-50). *)
Definition targetDuration (conf : AppSettings) (session : TimeEntry) : Z :=
  if String.eqb (type session) "work" then workDuration conf else breakDuration conf.

(** The state with [elapsed] as elapsed time and everything else kept. *)
Definition withElapsed (st : State) (elapsed : Z) : State :=
  applyUpdate st (setElapsedTime (fun _ => elapsed)).

(** The state with one more persisted entry and everything else kept. *)
Definition withEntry (st : State) (entry : TimeEntry) : State :=
  applyUpdate st (setTimeEntries (fun prev => prev ++ [entry])).

(** The machine at rest: no session, nothing running, no time elapsed. *)
Definition atRest (st : State) : Prop :=
  currentSession st = None /\ isRunning st = false /\ elapsedTime st = 0.

(** The entry list [after] is [before] with ended entries put at its end. *)
Definition extends (before after : list TimeEntry) (now : Date) : Prop :=
  exists added,
    after = before ++ added /\ Forall (fun entry => endTime entry = Some now) added.

(** [{...currentSession, notes: note}] *)
Definition withNotes (session : TimeEntry) (note : string) : TimeEntry :=
  {| id := id session;
     startTime := startTime session;
     endTime := endTime session;
     duration := duration session;
     type := type session;
     notes := note;
     Types.userId := Types.userId session |}.

Definition ownedBy (owner : string) (entry : TimeEntry) : Prop :=
  Types.userId entry = Some owner.

(** Everything in the state belongs to [owner]. *)
Definition ownedState (owner : string) (st : State) : Prop :=
  userId st = owner /\
  Forall (ownedBy owner) (timeEntries st) /\
  match currentSession st with
  | Some session => ownedBy owner session
  | None => True
  end.

(** No time is negative. *)
Definition countedState (st : State) : Prop :=
  0 <= elapsedTime st /\ Forall (fun entry => 0 <= duration entry) (timeEntries st).

End Traces.

(** ** More sample states *)

Module MoreSamples.
Import Types App Machine Samples.

(** Nothing started automatically. *)
Definition plainSettings : AppSettings :=
  {| workDuration := 1500;
     breakDuration := 300;
     autoStartBreaks := false;
     autoStartWork := false;
     notifications := false;
     darkMode := false;
     settingsUserId := Some "u1" |}.

(** The work session one tick short of its target, the statistics view
    being open. *)
Definition awayState : State :=
  mkState statistics true (Some workSession) "u1" [] 1499 plainSettings.

(** The settings view open, the machine at rest. *)
Definition settingsOpen : State :=
  mkState settingsTab false None "u1" [] 0 plainSettings.

End MoreSamples.

(** ** The settings form ([src/src/components/Settings.tsx]) *)

Module SettingsForm.
Import Types JS App.

(** [minutesToSeconds] (lines 37-40). Its argument is what
    [parseInt(e.target.value, 10)] returned, an integer or NaN ([None]);
    [parseInt(String(minutes), 10)] gives that same integer back, and NaN
    for NaN. *)
Definition minutesToSeconds (minutes : option Z) : Z :=
  match minutes with
  | Some parsed => parsed * 60
  | None => 0
  end.

(** [Math.floor], on the exact value of the float. *)
Definition Math_floor (x : float) : Z :=
  match Prim2SF x with
  | S754_finite s m e =>
      let n := if s then Z.neg m else Z.pos m in
      if 0 <=? e then n * 2 ^ e else n / 2 ^ (- e)
  | _ => 0
  end.

(** [secondsToMinutes] (lines 42-45) at a whole number of seconds:
    [Math.floor(seconds / 60)], which is never NaN there. *)
Definition secondsToMinutes (seconds : Z) : Z := seconds / 60.

(** Whether [secondsToMinutes] returns what [Math.floor(seconds / 60)]
    does on floats, at each of [count] durations from [seconds] on. *)
Fixpoint floorAgreesFrom (seconds : Z) (count : nat) : bool :=
  match count with
  | O => true
  | S count' =>
      (Math_floor (Z2F seconds / 60)%float =? secondsToMinutes seconds)
      && floorAgreesFrom (seconds + 1) count'
  end.

(** What a duration field shows (lines 83 and 105):
    [secondsToMinutes(seconds) || ''], [None] being the empty field. *)
Definition fieldValue (seconds : Z) : option Z :=
  let minutes := secondsToMinutes seconds in
  if minutes =? 0 then None else Some minutes.

(** The form state of a newly shown form (line 12): a copy of the
    settings of that moment. *)
Definition formOnMount (settings : AppSettings) : AppSettings := settings.

Definition withWorkDuration (prev : AppSettings) (seconds : Z) : AppSettings :=
  {| workDuration := seconds;
     breakDuration := breakDuration prev;
     autoStartBreaks := autoStartBreaks prev;
     autoStartWork := autoStartWork prev;
     notifications := notifications prev;
     darkMode := darkMode prev;
     settingsUserId := settingsUserId prev |}.

Definition withBreakDuration (prev : AppSettings) (seconds : Z) : AppSettings :=
  {| workDuration := workDuration prev;
     breakDuration := seconds;
     autoStartBreaks := autoStartBreaks prev;
     autoStartWork := autoStartWork prev;
     notifications := notifications prev;
     darkMode := darkMode prev;
     settingsUserId := settingsUserId prev |}.

(** [handleChange] (lines 14-21) for a checkbox: the field called [name]
    takes the value [checked]. The three checkboxes of the form are named
    after the fields below; a name that is no field of the settings leaves
    them as they are. *)
Definition handleChange (name : string) (checked : bool) (prev : AppSettings) : AppSettings :=
  if String.eqb name "autoStartBreaks" then
    {| workDuration := workDuration prev;
       breakDuration := breakDuration prev;
       autoStartBreaks := checked;
       autoStartWork := autoStartWork prev;
       notifications := notifications prev;
       darkMode := darkMode prev;
       settingsUserId := settingsUserId prev |}
  else if String.eqb name "autoStartWork" then
    {| workDuration := workDuration prev;
       breakDuration := breakDuration prev;
       autoStartBreaks := autoStartBreaks prev;
       autoStartWork := checked;
       notifications := notifications prev;
       darkMode := darkMode prev;
       settingsUserId := settingsUserId prev |}
  else if String.eqb name "notifications" then
    {| workDuration := workDuration prev;
       breakDuration := breakDuration prev;
       autoStartBreaks := autoStartBreaks prev;
       autoStartWork := autoStartWork prev;
       notifications := checked;
       darkMode := darkMode prev;
       settingsUserId := settingsUserId prev |}
  else prev.

(** What the user does in the form: type in one of the two duration
    fields (lines 84-90 and 106-112; the argument is the [parseInt] of the
    field), or tick one of the three checkboxes. *)
Inductive Edit :=
| TypeWorkMinutes (minutes : option Z)
| TypeBreakMinutes (minutes : option Z)
| SetCheckbox (name : string) (checked : bool).

Definition edit (formState : AppSettings) (e : Edit) : AppSettings :=
  match e with
  | TypeWorkMinutes minutes => withWorkDuration formState (minutesToSeconds minutes)
  | TypeBreakMinutes minutes => withBreakDuration formState (minutesToSeconds minutes)
  | SetCheckbox name checked => handleChange name checked formState
  end.

(** [handleSubmit] (lines 23-35): the form state goes to
    [updateSettings]. *)
Definition handleSubmit (r : State) (formState : AppSettings) : list Update :=
  updateSettings r formState.

End SettingsForm.

(** ** The notes box of the timer view ([Timer.tsx] lines 35, 88-91, 181-193) *)

Module TimerView.
Import Types App Timer Machine.

(** What happens in the application as the timer view sees it: the user
    types in the notes box, or one of the events of the machine occurs. *)
Inductive Action :=
| TypeNotes (value : string)
| Machine (e : Event).

Definition mounted (st : State) : bool :=
  match activeTab st with
  | timer => true
  | _ => false
  end.

Definition hasSession (st : State) : bool :=
  match currentSession st with
  | Some _ => true
  | None => false
  end.

(** The controls that can be disabled (lines 146, 159 and 192): the stop
    button and the notes box without a session, the reset button without a
    session when no time has elapsed. *)
Definition stopDisabled (st : State) : bool := negb (hasSession st).

Definition resetDisabled (st : State) : bool :=
  negb (hasSession st) && (elapsedTime st =? 0).

Definition notesDisabled (st : State) : bool := negb (hasSession st).

(** The text of the notes box (the [notes] state of [Timer], the empty
    string when the view is shown) beside the state of [App].
    [handleNotesChange] puts the typed text in the box and hands it to
    [addNoteToCurrentSession]; the box is disabled without a session. The
    box lives as long as the view stays shown. *)
Definition act (view : string * State) (now : Date) (a : Action) : string * State :=
  let (box, st) := view in
  match a with
  | TypeNotes value =>
      if mounted st && hasSession st then (value, step st now (AddNote value)) else view
  | Machine e =>
      let st' := step st now e in
      (if mounted st && mounted st' then box else "", st')
  end.

Definition actAll (view : string * State) (actions : list (Date * Action)) : string * State :=
  fold_left (fun v timed => act v (fst timed) (snd timed)) actions view.

End TimerView.

(** ** Persistence in [localStorage] ([App], [README.md] lines 244-288 and 386-391) *)

Module Storage.
Import Types App Timer Machine Traces.

(** The store: keys with their values, a key at most once. *)
Definition LocalStorage := list (string * string).

Fixpoint getItem (ls : LocalStorage) (key : string) : option string :=
  match ls with
  | [] => None
  | (k, v) :: rest => if String.eqb k key then Some v else getItem rest key
  end.

Fixpoint setItem (key value : string) (ls : LocalStorage) : LocalStorage :=
  match ls with
  | [] => [(key, value)]
  | (k, v) :: rest =>
      if String.eqb k key then (k, value) :: rest else (k, v) :: setItem key value rest
  end.

Definition entriesKey (userId : string) : string := "timeEntries_" ++ userId.
Definition settingsKey (userId : string) : string := "settings_" ++ userId.

(** [savedUserId || uuidv4()] (lines 244-247): a stored empty string is
    falsy. *)
Definition initialUserId (uuidv4 : string) (ls : LocalStorage) : string :=
  match getItem ls "userId" with
  | Some (String c rest) => String c rest
  | _ => uuidv4
  end.

Section Persistence.
(** [JSON.stringify] and [JSON.parse] at the two types stored. *)
Variable stringifyEntries : list TimeEntry -> string.
Variable stringifySettings : AppSettings -> string.
Variable parseEntries : string -> option (list TimeEntry).
Variable parseSettings : string -> option AppSettings.

(** The first render of [App] (lines 240-264): the three initializers,
    each reading the store; a [SyntaxError] in one of them ends it. *)
Definition firstRender (uuidv4 : string) (prefersDark : bool) (ls : LocalStorage)
    : Outcome State :=
  let userId := initialUserId uuidv4 ls in
  match initialTimeEntries parseEntries (getItem ls (entriesKey userId)) with
  | Thrown => Thrown
  | Returned timeEntries =>
      match initialSettings parseSettings prefersDark userId
                            (getItem ls (settingsKey userId)) with
      | Thrown => Thrown
      | Returned settings => Returned (initialState userId timeEntries settings)
      end
  end.

(** The three saving effects (lines 267-288). *)
Definition saveUserId (st : State) (ls : LocalStorage) : LocalStorage :=
  match getItem ls "userId" with
  | Some (String _ _) => ls
  | _ => setItem "userId" (userId st) ls
  end.

Definition saveEntries (st : State) (ls : LocalStorage) : LocalStorage :=
  setItem (entriesKey (userId st)) (stringifyEntries (timeEntries st)) ls.

Definition saveSettings (st : State) (ls : LocalStorage) : LocalStorage :=
  setItem (settingsKey (userId st)) (stringifySettings (settings st)) ls.

(** After the first render all three run. *)
Definition mountEffects (st : State) (ls : LocalStorage) : LocalStorage :=
  saveSettings st (saveEntries st (saveUserId st ls)).

(** After a later render an effect runs when one of its dependencies is a
    new value: the entry list and the settings are new objects exactly when
    their setter was called, and the user id never changes. *)
Definition setsEntries (queue : list Update) : bool :=
  existsb (fun u => match u with setTimeEntries _ => true | _ => false end) queue.

Definition setsSettings (queue : list Update) : bool :=
  existsb (fun u => match u with setSettings _ => true | _ => false end) queue.

Definition saveEffects (queue : list Update) (st : State) (ls : LocalStorage)
    : LocalStorage :=
  let ls1 := if setsEntries queue then saveEntries st ls else ls in
  if setsSettings queue then saveSettings st ls1 else ls1.

(** [clearStatistics] also writes the empty list itself (line 389). *)
Definition handlerWrites (r : State) (e : Event) (ls : LocalStorage) : LocalStorage :=
  match e with
  | ClearStatistics true => setItem (entriesKey (userId r)) (stringifyEntries []) ls
  | _ => ls
  end.

(** [runEffects] and [step] with the store beside the state. *)
Fixpoint runEffectsStored (fuel : nat) (now : Date) (st : State) (ls : LocalStorage)
    : State * LocalStorage :=
  match fuel with
  | O => (st, ls)
  | S fuel' =>
      match activeTab st with
      | timer =>
          match completionEffect st now with
          | [] => (st, ls)
          | queue =>
              let st' := commit st queue in
              runEffectsStored fuel' now st' (saveEffects queue st' ls)
          end
      | _ => (st, ls)
      end
  end.

Definition stepStored (stored : State * LocalStorage) (now : Date) (e : Event)
    : State * LocalStorage :=
  let (st, ls) := stored in
  let queue := handle st now e in
  let st' := commit st queue in
  runEffectsStored 2 now st' (saveEffects queue st' (handlerWrites st e ls)).

Definition runStored (stored : State * LocalStorage) (trace : list (Date * Event))
    : State * LocalStorage :=
  fold_left (fun s timed => stepStored s (fst timed) (snd timed)) trace stored.

(** The store holds the owner's id and, under the owner's two keys, the
    entry list and the settings of the state. *)
Definition mirrors (st : State) (ls : LocalStorage) : Prop :=
  getItem ls "userId" = Some (userId st) /\
  getItem ls (entriesKey (userId st)) = Some (stringifyEntries (timeEntries st)) /\
  getItem ls (settingsKey (userId st)) = Some (stringifySettings (settings st)).

End Persistence.

End Storage.

(** ** A sample store *)

Module StorageSamples.
Import Types App Machine Samples Storage.

(** Stand-ins for [JSON.stringify] and [JSON.parse] that tell the empty
    entry list from the others, and the dark settings from the light. *)
Definition entriesText (entries : list TimeEntry) : string :=
  match entries with
  | [] => "[]"
  | _ => "[...]"
  end.

Definition settingsText (conf : AppSettings) : string :=
  if darkMode conf then "{dark}" else "{light}".

Definition readSettings (text : string) : option AppSettings :=
  if String.eqb text "{dark}" then Some (defaultSettings true "u1")
  else if String.eqb text "{light}" then Some (defaultSettings false "u1")
  else None.

(** The first visit: an empty store, 'u1' generated as user id, a light
    colour scheme preferred. *)
Definition firstVisit : State := initialState "u1" [] (defaultSettings false "u1").

(** A session started and, three ticks later, the page closed. *)
Definition visit : list (Date * Event) :=
  [(0, Start); (1000, Tick); (2000, Tick); (3000, Tick)].

End StorageSamples.

(** ** Properties of the statistics engine *)

Module StatisticsFacts.
Import Types JS Statistics ExactScore Samples.

(** *** The reduce behind [mostProductiveDay] *)

Lemma moreProductive_cases prev current :
  (Types.totalWorkTime current < Types.totalWorkTime prev /\ moreProductive prev current = prev) \/
  (Types.totalWorkTime prev <= Types.totalWorkTime current /\ moreProductive prev current = current).
Proof.
  unfold moreProductive.
  destruct (Z.gtb_spec (Types.totalWorkTime prev) (Types.totalWorkTime current));
    [left | right]; split; trivial; lia.
Qed.

(** The reduce returns the last of the maximal days: nothing before it
    is larger, everything after it is strictly smaller. *)
Lemma fold_moreProductive_last rest : forall first,
  exists before d after,
    first :: rest = before ++ d :: after /\
    fold_left moreProductive rest first = d /\
    Forall (fun x => Types.totalWorkTime x <= Types.totalWorkTime d) before /\
    Forall (fun x => Types.totalWorkTime x < Types.totalWorkTime d) after.
Proof.
  induction rest as [|x rest IH] using rev_ind; intros first.
  - exists [], first, []. repeat split; constructor.
  - destruct (IH first) as (before & d & after & Hsplit & Hfold & Hbefore & Hafter).
    rewrite fold_left_app; simpl. rewrite Hfold.
    destruct (moreProductive_cases d x) as [[Hlt ->] | [Hle ->]].
    + exists before, d, (after ++ [x]). repeat split; trivial.
      * rewrite app_comm_cons, Hsplit, <- app_assoc. reflexivity.
      * apply Forall_app; split; trivial. constructor; [exact Hlt | constructor].
    + exists (first :: rest), x, []. split; [reflexivity|].
      split; [reflexivity|]. split; [|constructor].
      rewrite Hsplit. apply Forall_app; split.
      * eapply Forall_impl; [|exact Hbefore]. simpl; intros; lia.
      * constructor; [exact Hle|].
        eapply Forall_impl; [|exact Hafter]. simpl; intros; lia.
Qed.

(** C1 (as amended). [mostProductiveDay] is [null] when there are no
    days; otherwise it is a day of maximal [totalWorkTime], and among
    several maximal days it is the one iterated LAST in the sorted order:
    every day after it has strictly less work time. *)
Theorem mostProductiveDay_is_last_maximal :
  mostProductive [] = None /\
  (forall first rest,
    exists before d after,
      first :: rest = before ++ d :: after /\
      mostProductive (first :: rest) = Some d /\
      Forall (fun x => Types.totalWorkTime x <= Types.totalWorkTime d) before /\
      Forall (fun x => Types.totalWorkTime x < Types.totalWorkTime d) after) /\
  (forall formatDate dateValue b timeEntries timeRange showBreaks,
    let s := stats formatDate dateValue b timeEntries timeRange showBreaks in
    mostProductiveDay s = mostProductive (dailyStats s)).
Proof.
  split; [reflexivity | split].
  - intros first rest.
    destruct (fold_moreProductive_last rest first)
      as (before & d & after & Hsplit & Hfold & Hbefore & Hafter).
    exists before, d, after. simpl. rewrite Hfold. auto.
  - reflexivity.
Qed.

(** C1 (as stated) fails: of two days with equal work time, iterated
    newest first, the rule of the specification picks the first and the
    code returns the second. *)
Lemma mostProductiveDay_tie_not_first :
  sortDays keyInstant [newerDay; olderDay] = [newerDay; olderDay] /\
  Types.totalWorkTime newerDay = Types.totalWorkTime olderDay /\
  firstMaximalDay [newerDay; olderDay] = Some newerDay /\
  mostProductive [newerDay; olderDay] = Some olderDay /\
  date olderDay <> date newerDay.
Proof.
  repeat split; try reflexivity. discriminate.
Qed.

(** *** Totals and the break-visibility flag *)

(** C8. The five aggregates are those of the time-range-filtered set,
    whatever the break-visibility flag; the flag selects the display
    list, from which the per-day rows are built. *)
Theorem totals_independent_of_showBreaks :
  forall formatDate dateValue b timeEntries timeRange showBreaks,
    let s := stats formatDate dateValue b timeEntries timeRange showBreaks in
    let s' := stats formatDate dateValue b timeEntries timeRange (negb showBreaks) in
    let filtered := rangeFilter b timeRange timeEntries in
    (totalWorkTime s = sumDuration (filter isWork filtered) /\
     totalBreakTime s =
       sumDuration (filter (fun e => isShortBreak e || isLongBreak e) filtered) /\
     workSessions s = List.length (filter isWork filtered) /\
     shortBreaks s = List.length (filter isShortBreak filtered) /\
     longBreaks s = List.length (filter isLongBreak filtered)) /\
    (totalWorkTime s = totalWorkTime s' /\
     totalBreakTime s = totalBreakTime s' /\
     workSessions s = workSessions s' /\
     shortBreaks s = shortBreaks s' /\
     longBreaks s = longBreaks s') /\
    (filteredEntries s = (if showBreaks then filtered else filter isWork filtered) /\
     dailyStats s =
       sortDays dateValue (map dayStats (entriesByDay formatDate (filteredEntries s)))).
Proof.
  intros. repeat split.
Qed.

(** *** The CSV export *)

Lemma roundMinutes_nearest seconds :
  60 * roundMinutes seconds - 30 <= seconds < 60 * roundMinutes seconds + 30.
Proof.
  unfold roundMinutes.
  pose proof (Z.div_mod (seconds + 30) 60 ltac:(lia)).
  pose proof (Z.mod_pos_bound (seconds + 30) 60 ltac:(lia)).
  lia.
Qed.

(** [roundMinutes] against [Math.round(seconds / 60)] on binary64
    floats, for every duration up to a day. *)
Lemma roundMinutes_is_Math_round_upto_a_day :
  agreeFrom 0 (Z.to_nat 86401) = true.
Proof. vm_compute. reflexivity. Qed.

Lemma replaceCommas_get s : forall k,
  String.get k (replaceCommas s) = option_map semicolonForComma (String.get k s).
Proof.
  induction s as [|c s IH]; intros k; simpl; [reflexivity|].
  destruct k; simpl; [reflexivity | apply IH].
Qed.

Lemma replaceCommas_no_comma s k : String.get k (replaceCommas s) <> Some ","%char.
Proof.
  rewrite replaceCommas_get. destruct (String.get k s) as [c|]; simpl; [|discriminate].
  unfold semicolonForComma. destruct (Ascii.eqb_spec c ","); [discriminate | congruence].
Qed.

(** C3 (as amended). The export writes the header row and then one row
    per entry of the list the component was given, in order, whatever
    the selected time range and break visibility (it reads neither): the
    duration column is the nearest whole minute (a half goes up) and the
    notes column is the notes with every comma turned into a semicolon. *)
Theorem exportToCSV_one_row_per_given_entry :
  forall formatDate toLocaleTimeString timeEntries,
    let rows := csvData formatDate toLocaleTimeString timeEntries in
    exportToCSV formatDate toLocaleTimeString timeEntries =
      join (String (ascii_of_nat 10) "")
           ("Date,Start Time,End Time,Duration (minutes),Type,Notes"
            :: map (join ",") rows) /\
    List.length rows = List.length timeEntries /\
    (forall i entry,
       nth_error timeEntries i = Some entry ->
       exists dateCol startCol endCol minutes notesCol,
         nth_error rows i =
           Some [dateCol; startCol; endCol; numberToString minutes; type entry; notesCol] /\
         60 * minutes - 30 <= duration entry < 60 * minutes + 30 /\
         String.length notesCol = String.length (notes entry) /\
         (forall k,
            String.get k notesCol <> Some ","%char /\
            String.get k notesCol =
              option_map semicolonForComma (String.get k (notes entry)))).
Proof.
  intros formatDate toLocaleTimeString timeEntries rows. split; [reflexivity|].
  split; [apply length_map|].
  intros i entry Hnth. unfold rows, csvData.
  rewrite nth_error_map, Hnth. simpl.
  do 5 eexists. split; [reflexivity|].
  split; [apply roundMinutes_nearest|]. split.
  - clear. induction (notes entry); simpl; congruence.
  - intros k. split; [apply replaceCommas_no_comma | apply replaceCommas_get].
Qed.

(** C3 (as stated) fails: with the range set to today, yesterday's
    session is not in the displayed set, and the export still has its
    row. *)
Lemma exportToCSV_ignores_the_filters :
  filteredEntries (stats dayKey keyInstant bounds [yesterdayEntry] Today true) = [] /\
  csvData dayKey clockText [yesterdayEntry] =
    [["day 20000"; "3600"; "5100"; "25"; "work"; "draft; review"]].
Proof. split; vm_compute; reflexivity. Qed.

(** *** The productivity score *)













End StatisticsFacts.

(** ** Properties of the handlers and of the machine *)

Module MachineFacts.
Import Types JS Statistics App Timer Machine Samples.

(** *** The queue discipline *)

Lemma commit_app st q1 q2 : commit st (q1 ++ q2) = commit (commit st q1) q2.
Proof. apply fold_left_app. Qed.

Ltac unfold_handlers :=
  unfold handle, startTimer, pauseTimer, stopTimer, resetTimer, startBreak,
    updateSettings, toggleDarkMode, addNoteToCurrentSession, clearStatistics,
    tick, commit in *.

(** Splits the state into its cells and the effect into its branches. *)
Ltac effect_cases st :=
  destruct st as [tab run [session|] uid entries elapsed conf];
  unfold completionEffect; simpl;
  try (destruct run; simpl);
  try (destruct (String.eqb (type session) "work") eqn:Hwork; simpl);
  repeat match goal with
  | |- context [if ?c then _ else _] => destruct c eqn:?; simpl
  end.

(** What a firing of the completion effect leaves: the machine is idle,
    or it runs a break that has just begun. *)
Lemma completionEffect_result st now :
  completionEffect st now = [] \/
  (completionEffect st now <> [] /\
   (phase (commit st (completionEffect st now)) = Idle \/
    exists fresh,
      currentSession (commit st (completionEffect st now)) = Some fresh /\
      type fresh = "break" /\
      isRunning (commit st (completionEffect st now)) = true /\
      elapsedTime (commit st (completionEffect st now)) = 0 /\
      String.eqb (type fresh) "work" = false)).
Proof.
  effect_cases st; try (left; reflexivity); right; (split; [discriminate|]);
    unfold_handlers; simpl;
    try (left; reflexivity).
  right. eexists. repeat split.
Qed.

Lemma completionEffect_idle st now : phase st = Idle -> completionEffect st now = [].
Proof.
  unfold phase, completionEffect. destruct (currentSession st); [|reflexivity].
  destruct (isRunning st); discriminate.
Qed.

Lemma completionEffect_nil_any_time st now now' :
  completionEffect st now = [] -> completionEffect st now' = [].
Proof.
  effect_cases st; unfold_handlers; simpl; trivial; discriminate.
Qed.

Lemma completionEffect_keeps_tab st now :
  activeTab (commit st (completionEffect st now)) = activeTab st.
Proof.
  effect_cases st; unfold_handlers; reflexivity.
Qed.

(** A session that is not work is simply stopped when its time is up. *)
Lemma completionEffect_after_break st now fresh :
  currentSession st = Some fresh ->
  String.eqb (type fresh) "work" = false ->
  phase (commit st (completionEffect st now)) = Idle \/ completionEffect st now = [].
Proof.
  intros Hsession Hkind. revert Hsession.
  effect_cases st; intros [= ->]; unfold_handlers; simpl; auto; congruence.
Qed.

Lemma runEffects_S fuel now st :
  runEffects (S fuel) now st =
    match activeTab st with
    | timer =>
        match completionEffect st now with
        | [] => st
        | _ => runEffects fuel now (commit st (completionEffect st now))
        end
    | _ => st
    end.
Proof.
  cbn [runEffects]. destruct (activeTab st); trivial.
  destruct (completionEffect st now); reflexivity.
Qed.

(** Two runs of the effect are enough: after them it queues nothing. *)
Lemma effects_settle st now now' :
  activeTab (runEffects 2 now st) = timer ->
  completionEffect (runEffects 2 now st) now' = [].
Proof.
  rewrite runEffects_S. destruct (activeTab st) eqn:Htab; try congruence.
  destruct (completionEffect st now) as [|u q] eqn:Hq.
  { intros _. eapply completionEffect_nil_any_time; eassumption. }
  rewrite <- Hq. set (st1 := commit st (completionEffect st now)).
  assert (Htab1 : activeTab st1 = timer)
    by (unfold st1; rewrite completionEffect_keeps_tab; exact Htab).
  rewrite runEffects_S, Htab1. cbn [runEffects].
  destruct (completionEffect st1 now) as [|u1 q1] eqn:Hq1.
  { intros _. eapply completionEffect_nil_any_time; eassumption. }
  intros _. rewrite <- Hq1. apply completionEffect_idle.
  destruct (completionEffect_result st now) as [Hnil | [_ [Hidle | Hbreak]]].
  - congruence.
  - fold st1 in Hidle. rewrite (completionEffect_idle st1 now Hidle) in Hq1. discriminate.
  - fold st1 in Hbreak. destruct Hbreak as (fresh & Hfresh & _ & _ & _ & Hkind).
    destruct (completionEffect_after_break st1 now fresh Hfresh Hkind); congruence.
Qed.

Lemma runEffects_quiet fuel now st :
  (activeTab st = timer -> completionEffect st now = []) ->
  runEffects fuel now st = st.
Proof.
  intros Hquiet. destruct fuel as [|fuel]; [reflexivity|].
  rewrite runEffects_S. destruct (activeTab st); trivial.
  rewrite Hquiet; reflexivity.
Qed.

Lemma runEffects_add a b now st :
  runEffects (a + b) now st = runEffects b now (runEffects a now st).
Proof.
  revert st. induction a as [|a IH]; intros st; [reflexivity|].
  change (S a + b)%nat with (S (a + b)). rewrite !runEffects_S.
  destruct (activeTab st) eqn:Htab;
    try (symmetry; apply runEffects_quiet; congruence).
  destruct (completionEffect st now) as [|u q] eqn:Hq.
  - symmetry. apply runEffects_quiet. intros _. exact Hq.
  - apply IH.
Qed.

(** X1. The effect loop ends: whatever the state, running the effect more
    than twice changes nothing. *)
Theorem runEffects_two_suffice :
  forall fuel now st, runEffects (2 + fuel) now st = runEffects 2 now st.
Proof.
  intros fuel now st. rewrite runEffects_add.
  apply runEffects_quiet, effects_settle.
Qed.

(** *** Invariants of the machine *)

Lemma runEffects_preserves (P : State -> Prop) :
  (forall st now, P st -> P (commit st (completionEffect st now))) ->
  forall fuel now st, P st -> P (runEffects fuel now st).
Proof.
  intros Heffect fuel now. induction fuel as [|fuel IH]; intros st HP; [exact HP|].
  rewrite runEffects_S. destruct (activeTab st); trivial.
  destruct (completionEffect st now) as [|u q] eqn:Hq; trivial.
  apply IH. rewrite <- Hq. apply Heffect, HP.
Qed.

Lemma step_preserves (P : State -> Prop) :
  (forall st now e, P st -> P (commit st (handle st now e))) ->
  (forall st now, P st -> P (commit st (completionEffect st now))) ->
  forall st now e, P st -> P (step st now e).
Proof.
  intros Hhandle Heffect st now e HP. unfold step.
  apply runEffects_preserves; auto.
Qed.

Lemma reachable_preserves (P : State -> Prop) init :
  (forall st now e, P st -> P (step st now e)) ->
  P init -> forall st, reachable init st -> P st.
Proof.
  intros Hstep Hinit st Hreach. induction Hreach; auto.
Qed.

Lemma handle_sessionInvariant st now e :
  sessionInvariant st -> sessionInvariant (commit st (handle st now e)).
Proof.
  destruct st as [tab run [session|] uid entries elapsed conf];
    destruct e as [| | | | | note | | tab' | conf' | | confirmed];
    unfold sessionInvariant; unfold_handlers; simpl;
    try destruct run; try destruct confirmed; simpl; intuition congruence.
Qed.

Lemma effect_sessionInvariant st now :
  sessionInvariant st -> sessionInvariant (commit st (completionEffect st now)).
Proof.
  effect_cases st; unfold sessionInvariant; unfold_handlers; simpl; intuition.
Qed.

Lemma finalize_finalized session now elapsed : finalized (finalize session now elapsed).
Proof. unfold finalized; simpl; discriminate. Qed.

Lemma Forall_snoc {A} (P : A -> Prop) xs x : Forall P xs -> P x -> Forall P (xs ++ [x]).
Proof. intros Hxs Hx. apply Forall_app; split; [exact Hxs | constructor; [exact Hx | constructor]]. Qed.

Create HintDb machine.
#[local] Hint Resolve finalize_finalized Forall_snoc Forall_nil : machine.

Lemma handle_finalized st now e :
  Forall finalized (timeEntries st) ->
  Forall finalized (timeEntries (commit st (handle st now e))).
Proof.
  destruct st as [tab run [session|] uid entries elapsed conf];
    destruct e as [| | | | | note | | tab' | conf' | | confirmed];
    unfold_handlers; simpl;
    try destruct run; try destruct confirmed; simpl; auto with machine.
Qed.

Lemma effect_finalized st now :
  Forall finalized (timeEntries st) ->
  Forall finalized (timeEntries (commit st (completionEffect st now))).
Proof.
  effect_cases st; unfold_handlers; simpl; auto 6 with machine.
Qed.

Lemma finalize_typed session now elapsed :
  machineTyped session -> machineTyped (finalize session now elapsed).
Proof. unfold machineTyped; simpl; trivial. Qed.

Lemma newEntry_typed st now :
  machineTyped (newEntry st now "work") /\ machineTyped (newEntry st now "break").
Proof. unfold machineTyped; simpl; auto. Qed.

Ltac solve_typed :=
  unfold typedState; unfold_handlers; simpl; intros [Hentries Hsession];
  repeat split;
  repeat first
    [ assumption
    | apply Forall_nil
    | apply Forall_snoc
    | apply finalize_typed
    | apply newEntry_typed
    | exact I ].

Lemma handle_typed st now e : typedState st -> typedState (commit st (handle st now e)).
Proof.
  destruct st as [tab run [session|] uid entries elapsed conf];
    destruct e as [| | | | | note | | tab' | conf' | | confirmed];
    try destruct run; try destruct confirmed; solve_typed.
Qed.

Lemma effect_typed st now : typedState st -> typedState (commit st (completionEffect st now)).
Proof.
  effect_cases st; solve_typed.
Qed.

Lemma initial_sessionInvariant init : isInitial init -> sessionInvariant init.
Proof. intros (uid & entries & conf & ->). split; reflexivity. Qed.

(** C9. The current session is one optional cell of the state, apart from
    the entry list. Every operation keeps the invariant that it is absent
    (and then the machine is idle: nothing runs, no time has elapsed) or an
    entry whose [endTime] is null; so it holds in every reachable state,
    where moreover the session is not an element of the persisted list as
    soon as the loaded entries were all ended ones. *)
Theorem current_session_invariant :
  (forall st now e, sessionInvariant st -> sessionInvariant (step st now e)) /\
  (forall init st,
     isInitial init -> reachable init st ->
     sessionInvariant st /\
     (currentSession st = None -> phase st = Idle) /\
     (forall session, currentSession st = Some session -> endTime session = None) /\
     (Forall finalized (timeEntries init) ->
      forall session, currentSession st = Some session -> ~ In session (timeEntries st))).
Proof.
  assert (Hstep : forall st now e, sessionInvariant st -> sessionInvariant (step st now e)).
  { apply step_preserves; [apply handle_sessionInvariant | apply effect_sessionInvariant]. }
  split; [exact Hstep|].
  intros init st Hinit Hreach.
  assert (Hinv : sessionInvariant st).
  { apply (reachable_preserves sessionInvariant init); auto using initial_sessionInvariant. }
  split; [exact Hinv|]. split; [|split].
  - unfold phase. intros ->. reflexivity.
  - intros session Hsession. unfold sessionInvariant in Hinv.
    rewrite Hsession in Hinv. exact Hinv.
  - intros Hloaded session Hsession Hin.
    assert (Hall : Forall finalized (timeEntries st)).
    { apply (reachable_preserves (fun s => Forall finalized (timeEntries s)) init); trivial.
      apply step_preserves; [apply handle_finalized | apply effect_finalized]. }
    rewrite Forall_forall in Hall. apply (Hall session Hin).
    unfold sessionInvariant in Hinv. rewrite Hsession in Hinv. exact Hinv.
Qed.

(** The invariant after a session was started and left paused. *)
Lemma current_session_invariant_witness :
  isInitial freshState /\
  reachable freshState (step (step freshState 0 Start) 1000 Pause) /\
  phase (step (step freshState 0 Start) 1000 Pause) = Paused /\
  sessionInvariant (step (step freshState 0 Start) 1000 Pause).
Proof.
  assert (Hinit : isInitial freshState)
    by (exists "u1", [], autoBreakSettings; reflexivity).
  assert (Hreach : reachable freshState (step (step freshState 0 Start) 1000 Pause))
    by (apply reachable_step, reachable_step, reachable_init).
  split; [exact Hinit|]. split; [exact Hreach|]. split; [reflexivity|].
  exact (proj1 (proj2 current_session_invariant freshState _ Hinit Hreach)).
Defined.

(** *** Entry types and the break aggregates *)

Lemma typed_not_shortBreak entry : machineTyped entry -> isShortBreak entry = false.
Proof. unfold machineTyped, isShortBreak. intros [-> | ->]; reflexivity. Qed.

Lemma typed_not_longBreak entry : machineTyped entry -> isLongBreak entry = false.
Proof. unfold machineTyped, isLongBreak. intros [-> | ->]; reflexivity. Qed.

Lemma filter_none {A} (f : A -> bool) (P : A -> Prop) xs :
  (forall x, P x -> f x = false) -> Forall P xs -> filter f xs = [].
Proof.
  intros Hf Hxs. induction Hxs as [|x xs Hx _ IH]; simpl; [reflexivity|].
  rewrite (Hf x Hx). exact IH.
Qed.

Lemma Forall_filter {A} (f : A -> bool) (P : A -> Prop) xs :
  Forall P xs -> Forall P (filter f xs).
Proof.
  intros Hxs. induction Hxs as [|x xs Hx _ IH]; simpl; [constructor|].
  destruct (f x); [constructor|]; assumption.
Qed.

Lemma rangeFilter_typed b timeRange timeEntries :
  Forall machineTyped timeEntries -> Forall machineTyped (rangeFilter b timeRange timeEntries).
Proof. destruct timeRange; simpl; auto using Forall_filter. Qed.

Lemma typed_stats_no_breaks formatDate dateValue b timeEntries timeRange showBreaks :
  Forall machineTyped timeEntries ->
  let s := stats formatDate dateValue b timeEntries timeRange showBreaks in
  totalBreakTime s = 0 /\ shortBreaks s = 0%nat /\ longBreaks s = 0%nat.
Proof.
  intros Htyped. pose proof (rangeFilter_typed b timeRange _ Htyped) as Hfiltered.
  simpl. repeat split.
  - rewrite (filter_none _ machineTyped); trivial.
    intros x Hx. rewrite typed_not_shortBreak, typed_not_longBreak; trivial.
  - rewrite (filter_none _ machineTyped); trivial. apply typed_not_shortBreak.
  - rewrite (filter_none _ machineTyped); trivial. apply typed_not_longBreak.
Qed.

Lemma reachable_typed init st :
  typedState init -> reachable init st -> typedState st.
Proof.
  intros Hinit. apply (reachable_preserves typedState init); trivial.
  apply step_preserves; [apply handle_typed | apply effect_typed].
Qed.

(** C10. Starting from an empty entry list, every entry the machine
    persists, and its current session, has type 'work' or 'break'; the
    statistics count break time and break sessions for 'shortBreak' and
    'longBreak' only, so on the machine's entries the break total and both
    break counts are 0 for every range and visibility. *)
Theorem machine_entries_have_no_break_statistics :
  forall init st,
    isInitial init -> timeEntries init = [] -> reachable init st ->
    Forall machineTyped (timeEntries st) /\
    (forall session, currentSession st = Some session -> machineTyped session) /\
    (forall formatDate dateValue b timeRange showBreaks,
       let s := stats formatDate dateValue b (statisticsEntries st) timeRange showBreaks in
       totalBreakTime s = 0 /\ shortBreaks s = 0%nat /\ longBreaks s = 0%nat).
Proof.
  intros init st (uid & entries & conf & ->) Hempty Hreach. simpl in Hempty. subst entries.
  assert (Htyped : typedState st).
  { apply (reachable_typed (initialState uid [] conf)); trivial. split; [constructor | exact I]. }
  destruct Htyped as [Hentries Hsession]. split; [exact Hentries|]. split.
  - intros session Heq. rewrite Heq in Hsession. exact Hsession.
  - intros. apply typed_stats_no_breaks. apply Forall_filter, Hentries.
Qed.

(** One break of two seconds was recorded, and the break total is 0. *)
Lemma machine_entries_have_no_break_statistics_witness :
  isInitial freshState /\
  timeEntries freshState = [] /\
  reachable freshState afterOneBreak /\
  timeEntries afterOneBreak = [finalize (newEntry freshState 0 "break") 2000 2] /\
  totalBreakTime (stats dayKey keyInstant bounds (statisticsEntries afterOneBreak) All true) = 0.
Proof.
  assert (Hinit : isInitial freshState)
    by (exists "u1", [], autoBreakSettings; reflexivity).
  assert (Hreach : reachable freshState afterOneBreak)
    by (unfold afterOneBreak; repeat apply reachable_step; apply reachable_init).
  split; [exact Hinit|]. split; [reflexivity|]. split; [exact Hreach|].
  split; [vm_compute; reflexivity|].
  exact (proj1 (proj2 (proj2
    (machine_entries_have_no_break_statistics freshState afterOneBreak Hinit eq_refl Hreach))
    dayKey keyInstant bounds All true)).
Defined.

(** *** The handlers one by one *)

(** C7. [resetTimer] clears the session and the elapsed time and stops
    the clock, from every state, and leaves the entry list as it was; so
    does the whole step, the effect having nothing to do on an idle
    machine. *)
Theorem resetTimer_discards_without_persisting :
  forall st now,
    let st' := commit st resetTimer in
    currentSession st' = None /\
    elapsedTime st' = 0 /\
    isRunning st' = false /\
    phase st' = Idle /\
    timeEntries st' = timeEntries st /\
    settings st' = settings st /\
    step st now Reset = st'.
Proof.
  intros st now. destruct st as [tab run session uid entries elapsed conf].
  repeat split. unfold step. simpl. destruct tab; reflexivity.
Qed.

(** C5. From every state [startBreak] appends the active session, ended
    now with the elapsed time as its duration, if there is one, and nothing
    if there is none; then the current session is one new entry of type
    'break' that has not ended, no time has elapsed and the clock runs.
    Called right after [startTimer] on an idle machine, the entry it
    appends is that work session with duration 0. *)
Theorem startBreak_finalizes_then_starts_one_break :
  forall st now,
    let st' := commit st (startBreak st now) in
    timeEntries st' =
      match currentSession st with
      | Some session => timeEntries st ++ [finalize session now (elapsedTime st)]
      | None => timeEntries st
      end /\
    currentSession st' = Some (newEntry st now "break") /\
    type (newEntry st now "break") = "break" /\
    endTime (newEntry st now "break") = None /\
    elapsedTime st' = 0 /\
    phase st' = Running /\
    (0 < breakDuration (settings st) -> step st now Break = st') /\
    (forall started,
       currentSession st = None -> isRunning st = false -> elapsedTime st = 0 ->
       let st1 := commit st (startTimer st started) in
       exists work,
         timeEntries (commit st1 (startBreak st1 now)) = timeEntries st ++ [work] /\
         type work = "work" /\ duration work = 0 /\
         startTime work = started /\ endTime work = Some now).
Proof.
  intros st now. destruct st as [tab run [session|] uid entries elapsed conf];
    unfold_handlers; simpl; repeat split; trivial.
  - intros Hpos. unfold step, handle. unfold_handlers. simpl.
    destruct tab; trivial. unfold completionEffect; simpl.
    destruct (Z.geb_spec 0 (breakDuration conf)); [lia | reflexivity].
  - intros started; discriminate.
  - intros Hpos. unfold step, handle. unfold_handlers. simpl.
    destruct tab; trivial. unfold completionEffect; simpl.
    destruct (Z.geb_spec 0 (breakDuration conf)); [lia | reflexivity].
  - intros started _ -> ->. simpl. eexists. repeat split.
Qed.

(** [startBreak] on the fresh machine and with positive break length. *)
Lemma startBreak_finalizes_then_starts_one_break_witness :
  0 < breakDuration (settings freshState) /\
  step freshState 0 Break = commit freshState (startBreak freshState 0) /\
  timeEntries (step freshState 0 Break) = [] /\
  currentSession (step freshState 0 Break) = Some (newEntry freshState 0 "break").
Proof.
  assert (Hpos : 0 < breakDuration (settings freshState)) by reflexivity.
  pose proof (startBreak_finalizes_then_starts_one_break freshState 0)
    as (Hentries & Hsession & _ & _ & _ & _ & Hstep & _).
  split; [exact Hpos|]. split; [exact (Hstep Hpos)|].
  rewrite (Hstep Hpos). split; [exact Hentries | exact Hsession].
Defined.

(** *** Auto-completion *)

(** When the tick that reaches the work target is followed by the
    completion effect with automatic breaks, the effect calls [stopTimer]
    and then [startBreak], whose own [stopTimer] still sees the session of
    the same render: the ended work session is appended twice. One break
    session is created and runs. *)
Lemma autoStartBreaks_completion_appends_twice st now session :
  activeTab st = timer ->
  isRunning st = true ->
  currentSession st = Some session ->
  type session = "work" ->
  autoStartBreaks (settings st) = true ->
  workDuration (settings st) <= elapsedTime st + 1 ->
  0 < breakDuration (settings st) ->
  let ended := finalize session now (elapsedTime st + 1) in
  let st' := step st now Tick in
  timeEntries st' = timeEntries st ++ [ended; ended] /\
  currentSession st' = Some (newEntry st now "break") /\
  isRunning st' = true /\
  elapsedTime st' = 0.
Proof.
  destruct st as [tab run current uid entries elapsed conf]; simpl.
  intros -> -> -> Hkind Hauto Htarget Hbreak.
  assert (Hge : (elapsed + 1 >=? workDuration conf) = true)
    by (destruct (Z.geb_spec (elapsed + 1) (workDuration conf)); [reflexivity | lia]).
  assert (Hlt : (0 >=? breakDuration conf) = false)
    by (destruct (Z.geb_spec 0 (breakDuration conf)); [lia | reflexivity]).
  unfold step, handle, tick; simpl. unfold completionEffect; simpl.
  rewrite Hkind; simpl. rewrite Hge, Hauto; simpl.
  unfold_handlers; simpl. rewrite Hlt; simpl.
  rewrite <- app_assoc. repeat split.
Qed.

Lemma reachable_ticks init count now st :
  reachable init st -> reachable init (ticks count now st).
Proof.
  revert st. induction count as [|count IH]; intros st Hst; simpl; [exact Hst|].
  apply IH, reachable_step, Hst.
Qed.

(** C4, evaluated. The timer view is open, a work session is one tick
    short of a 25-minute target (a state reached by starting the timer and
    1499 ticks), automatic breaks are on. The tick that
    reaches the target leaves one running break session, and TWO copies of
    the ended work session in the entry list; the next tick fires nothing
    more. *)
Theorem autoCompletion_appends_work_entry_twice :
  let st' := step almostDone doneAt Tick in
  let st'' := step st' (doneAt + 1000) Tick in
  reachable freshState almostDone /\
  timeEntries almostDone = [] /\
  timeEntries st' = [finishedWork; finishedWork] /\
  currentSession st' = Some (newEntry almostDone doneAt "break") /\
  phase st' = Running /\
  elapsedTime st' = 0 /\
  timeEntries st'' = [finishedWork; finishedWork] /\
  currentSession st'' = currentSession st' /\
  elapsedTime st'' = 1.
Proof.
  assert (H := autoStartBreaks_completion_appends_twice almostDone doneAt workSession
                 eq_refl eq_refl eq_refl eq_refl eq_refl ltac:(simpl; lia) eq_refl).
  destruct H as (Hentries & Hsession & Hrun & Hzero).
  cbv zeta. split.
  { replace almostDone with (ticks 1499 0 (step freshState 0 Start))
      by (vm_compute; reflexivity).
    apply reachable_ticks, reachable_step, reachable_init. }
  split; [reflexivity|]. split; [exact Hentries|]. split; [exact Hsession|].
  repeat split; vm_compute; reflexivity.
Qed.

(** X2. When a running break reaches its target with automatic work on, the
    effect calls [stopTimer] and then [startTimer]; the latter, a prop of
    the render in which [isRunning] is true, queues nothing: the break is
    persisted once and the machine is left idle. *)
Theorem autoStartWork_completion_ends_idle st now session :
  activeTab st = timer ->
  isRunning st = true ->
  currentSession st = Some session ->
  type session = "break" ->
  autoStartWork (settings st) = true ->
  breakDuration (settings st) <= elapsedTime st + 1 ->
  let st' := step st now Tick in
  timeEntries st' = timeEntries st ++ [finalize session now (elapsedTime st + 1)] /\
  currentSession st' = None /\
  isRunning st' = false /\
  elapsedTime st' = 0.
Proof.
  destruct st as [tab run current uid entries elapsed conf]; simpl.
  intros -> -> -> Hkind Hauto Htarget.
  assert (Hge : (elapsed + 1 >=? breakDuration conf) = true)
    by (destruct (Z.geb_spec (elapsed + 1) (breakDuration conf)); [reflexivity | lia]).
  unfold step, handle, tick; simpl. unfold completionEffect; simpl.
  rewrite Hkind; simpl. rewrite Hge, Hauto; simpl.
  unfold_handlers; simpl. repeat split.
Qed.

(** The break of the sample, one tick short of 5 minutes. *)
Lemma autoStartWork_completion_ends_idle_witness :
  breakDuration (settings breakAlmostOver) <= elapsedTime breakAlmostOver + 1 /\
  phase (step breakAlmostOver 300000 Tick) = Idle /\
  List.length (timeEntries (step breakAlmostOver 300000 Tick)) = 1%nat.
Proof.
  assert (Htarget : breakDuration (settings breakAlmostOver) <= elapsedTime breakAlmostOver + 1)
    by (simpl; lia).
  pose proof (autoStartWork_completion_ends_idle breakAlmostOver 300000 _
                eq_refl eq_refl eq_refl eq_refl eq_refl Htarget)
    as (Hentries & Hsession & _ & _).
  split; [exact Htarget|]. split.
  - unfold phase. rewrite Hsession. reflexivity.
  - rewrite Hentries. reflexivity.
Defined.

(** *** Loading the persisted records *)

(** C2 (as amended). Each initializer returns the default (the empty
    list; the default settings) when nothing is stored under the key or
    the stored text is empty; on any other stored text it returns what
    [JSON.parse] returns when that succeeds, and when [JSON.parse] throws
    the error leaves the initializer: it is not turned into the default. *)
Theorem initializers_default_parse_or_throw :
  forall (parseEntries : string -> option (list TimeEntry))
         (parseSettings : string -> option AppSettings)
         (prefersDark : bool) (userId : string) (saved : option string),
    (saved = None \/ saved = Some "" ->
     initialTimeEntries parseEntries saved = Returned [] /\
     initialSettings parseSettings prefersDark userId saved =
       Returned (defaultSettings prefersDark userId)) /\
    (forall text,
       saved = Some text -> text <> "" ->
       initialTimeEntries parseEntries saved =
         match parseEntries text with
         | Some value => Returned value
         | None => Thrown
         end /\
       initialSettings parseSettings prefersDark userId saved =
         match parseSettings text with
         | Some value => Returned value
         | None => Thrown
         end).
Proof.
  intros parseEntries parseSettings prefersDark userId saved. split.
  - intros [-> | ->]; split; reflexivity.
  - intros text -> Hnonempty.
    destruct text as [|c rest]; [congruence|]. split; reflexivity.
Qed.

(** The two cases at stored texts: nothing stored, and a stored empty
    array. *)
Lemma initializers_default_parse_or_throw_witness :
  initialTimeEntries parseEmptyArrayOnly None = Returned [] /\
  "[]" <> "" /\
  initialTimeEntries parseEmptyArrayOnly (Some "[]") = Returned [].
Proof.
  pose proof (initializers_default_parse_or_throw
                parseEmptyArrayOnly (fun _ => None) false "u1") as H.
  split; [exact (proj1 (proj1 (H None) (or_introl eq_refl)))|].
  assert (Hne : "[]" <> "") by discriminate.
  split; [exact Hne|].
  exact (proj1 (proj2 (H (Some "[]")) "[]" eq_refl Hne)).
Defined.

(** C2 (as stated) fails: a stored text that does not parse is not
    treated as an absent one. Absent, the entries are the empty list;
    unparseable, the initializer throws. *)
Lemma corrupt_text_is_not_absence :
  initialTimeEntries parseEmptyArrayOnly None = Returned [] /\
  parseEmptyArrayOnly corruptText = None /\
  initialTimeEntries parseEmptyArrayOnly (Some corruptText) = Thrown /\
  initialSettings (fun _ => None) false "u1" (Some corruptText) = Thrown.
Proof. repeat split. Qed.

End MachineFacts.

(** ** Properties of the statistics view *)

Module StatisticsMore.
Import Types JS Statistics Arrays Views.

(** *** The stable sort *)

Section SortFacts.
Context {A : Type} (compareFn : A -> A -> Z).

Lemma insertSorted_perm a xs : Permutation (insertSorted compareFn a xs) (a :: xs).
Proof.
  induction xs as [|b xs IH]; simpl; [reflexivity|].
  destruct (compareFn a b <=? 0); [reflexivity|].
  rewrite IH. apply perm_swap.
Qed.

Lemma sortWith_perm xs : Permutation (sortWith compareFn xs) xs.
Proof.
  induction xs as [|a xs IH]; simpl; [constructor|].
  rewrite insertSorted_perm. constructor. exact IH.
Qed.

(** With a comparison that is the difference of two keys, second minus
    first, the result has its keys in descending order. *)
Context (key : A -> Z).
Hypothesis compare_key : forall a b, compareFn a b = key b - key a.

Lemma insertSorted_descending a xs :
  descendingBy key xs -> descendingBy key (insertSorted compareFn a xs).
Proof.
  unfold descendingBy. induction 1 as [|b xs Hs IH Hb]; simpl.
  - constructor; constructor.
  - rewrite compare_key. destruct (Z.leb_spec (key b - key a) 0).
    + constructor; [constructor; assumption|].
      constructor; [lia|].
      eapply Forall_impl; [|exact Hb]. simpl; intros; lia.
    + constructor; [exact IH|].
      eapply Permutation_Forall; [symmetry; apply insertSorted_perm|].
      constructor; [lia | exact Hb].
Qed.

Lemma sortWith_descending xs : descendingBy key (sortWith compareFn xs).
Proof.
  induction xs as [|a xs IH]; simpl; [constructor|].
  apply insertSorted_descending, IH.
Qed.

(** Sorting an array that is in descending order leaves it as it is. *)
Lemma sortWith_descending_same xs : descendingBy key xs -> sortWith compareFn xs = xs.
Proof.
  unfold descendingBy. induction 1 as [|a xs Hs IH Ha]; [reflexivity|].
  change (sortWith compareFn (a :: xs)) with (insertSorted compareFn a (sortWith compareFn xs)).
  rewrite IH. destruct xs as [|b rest]; [reflexivity|]. simpl.
  rewrite compare_key. inversion Ha; subst.
  destruct (Z.leb_spec (key b - key a) 0); [reflexivity | lia].
Qed.

End SortFacts.

Lemma sortDays_sortWith dateValue days :
  sortDays dateValue days = sortWith (compareDays dateValue) days.
Proof.
  unfold sortDays, sortWith. induction days as [|a days IH]; simpl; [reflexivity|].
  rewrite IH. generalize (fold_right (insertSorted (compareDays dateValue)) [] days).
  intros sorted. induction sorted as [|b sorted IHs]; simpl; [reflexivity|].
  rewrite IHs. reflexivity.
Qed.


(** *** Sums of durations *)

Lemma fold_sum_shift (xs : list TimeEntry) : forall start,
  fold_left (fun total entry => total + duration entry) xs start =
  start + sumDuration xs.
Proof.
  unfold sumDuration. induction xs as [|x xs IH]; intros start; cbn [fold_left]; [lia|].
  rewrite (IH (start + duration x)), (IH (0 + duration x)). lia.
Qed.

Lemma sumDuration_cons x xs : sumDuration (x :: xs) = duration x + sumDuration xs.
Proof. unfold sumDuration at 1; simpl. rewrite fold_sum_shift. lia. Qed.

Lemma sumDuration_app xs ys : sumDuration (xs ++ ys) = sumDuration xs + sumDuration ys.
Proof.
  induction xs as [|x xs IH]; simpl; [reflexivity|].
  rewrite !sumDuration_cons, IH. lia.
Qed.

Lemma filter_none' {A} (f : A -> bool) xs :
  (forall x, In x xs -> f x = false) -> filter f xs = [].
Proof.
  induction xs as [|x xs IH]; simpl; intros H; [reflexivity|].
  rewrite (H x) by auto. apply IH. auto.
Qed.

(** *** Grouping by day *)

Section Grouping.
Variable formatDate : Date -> string.

Abbreviation dayOf entry := (formatDate (startTime entry)).
Abbreviation onDay k := (Views.onDay formatDate k).
Abbreviation grouped := (Views.grouped formatDate).

Lemma pushDay_absent d entry acc :
  ~ In d (map fst acc) -> pushDay d entry acc = acc ++ [(d, [entry])].
Proof.
  induction acc as [|[k es] acc IH]; simpl; intros Hnot; [reflexivity|].
  destruct (String.eqb_spec k d); [tauto|]. rewrite IH; tauto.
Qed.

Lemma pushDay_present d entry pre es post :
  ~ In d (map fst pre) ->
  pushDay d entry (pre ++ (d, es) :: post) = pre ++ (d, es ++ [entry]) :: post.
Proof.
  induction pre as [|[k es0] pre IH]; simpl; intros Hnot.
  - rewrite String.eqb_refl. reflexivity.
  - destruct (String.eqb_spec k d); [tauto|]. rewrite IH; tauto.
Qed.

Lemma first_group d (acc : list (string * list TimeEntry)) :
  In d (map fst acc) ->
  exists pre es post, acc = pre ++ (d, es) :: post /\ ~ In d (map fst pre).
Proof.
  induction acc as [|[k es] acc IH]; simpl; [tauto|].
  destruct (string_dec k d) as [-> | Hne].
  - intros _. exists [], es, acc. auto.
  - intros [Heq | Hin]; [congruence|].
    destruct (IH Hin) as (pre & es' & post & -> & Hpre).
    exists ((k, es) :: pre), es', post. split; [reflexivity|].
    simpl. tauto.
Qed.

Lemma filter_snoc_other k (seen : list TimeEntry) entry :
  k <> dayOf entry -> filter (onDay k) (seen ++ [entry]) = filter (onDay k) seen.
Proof.
  intros Hne. rewrite filter_app; simpl. unfold Views.onDay at 2.
  destruct (String.eqb_spec (dayOf entry) k); [congruence | apply app_nil_r].
Qed.

Lemma filter_snoc_same (seen : list TimeEntry) entry :
  filter (onDay (dayOf entry)) (seen ++ [entry]) = filter (onDay (dayOf entry)) seen ++ [entry].
Proof.
  rewrite filter_app; simpl. unfold Views.onDay at 2.
  rewrite String.eqb_refl. reflexivity.
Qed.

Lemma grouped_other_groups acc seen entry :
  ~ In (dayOf entry) (map fst acc) ->
  Forall (fun g => snd g = filter (onDay (fst g)) seen /\ snd g <> []) acc ->
  Forall (fun g => snd g = filter (onDay (fst g)) (seen ++ [entry]) /\ snd g <> []) acc.
Proof.
  intros Hnot Hall. rewrite Forall_forall in *. intros [k es] Hin.
  destruct (Hall _ Hin) as [Heq Hne]. simpl in *. split; [|exact Hne].
  rewrite filter_snoc_other; [exact Heq|].
  intros ->. apply Hnot. apply (in_map fst) in Hin. exact Hin.
Qed.

Lemma grouped_push acc seen entry :
  grouped acc seen -> grouped (pushDay (dayOf entry) entry acc) (seen ++ [entry]).
Proof.
  intros (Hkeys & Hall & Hcover).
  destruct (in_dec string_dec (dayOf entry) (map fst acc)) as [Hin | Hnot].
  - destruct (first_group _ _ Hin) as (pre & es & post & -> & Hpre).
    rewrite pushDay_present by exact Hpre.
    rewrite map_app in Hkeys; simpl in Hkeys.
    assert (Hpost : ~ In (dayOf entry) (map fst post)).
    { apply NoDup_remove_2 in Hkeys. intros H; apply Hkeys, in_or_app; auto. }
    apply Forall_app in Hall. destruct Hall as [Hallpre Hallpost].
    inversion Hallpost as [|g gs [Heq Hne] Hpostall]; subst; simpl in *.
    split; [|split].
    + rewrite map_app; simpl. exact Hkeys.
    + apply Forall_app; split; [apply grouped_other_groups; assumption|].
      constructor; simpl.
      * split; [rewrite filter_snoc_same, <- Heq; reflexivity|].
        destruct es; discriminate.
      * apply grouped_other_groups; assumption.
    + intros e He. rewrite map_app; simpl.
      apply in_app_or in He. destruct He as [He | [<- | []]].
      * specialize (Hcover e He). rewrite map_app in Hcover; exact Hcover.
      * apply in_or_app; right; left; reflexivity.
  - rewrite pushDay_absent by exact Hnot. split; [|split].
    + rewrite map_app; simpl. apply NoDup_app_remove_l with (l := []); simpl.
      apply Permutation_NoDup with (l := dayOf entry :: map fst acc).
      * apply Permutation_cons_append.
      * constructor; assumption.
    + apply Forall_app; split; [apply grouped_other_groups; assumption|].
      constructor; [|constructor]. simpl. split; [|discriminate].
      rewrite filter_snoc_same.
      replace (filter (onDay (dayOf entry)) seen) with (@nil TimeEntry); [reflexivity|].
      symmetry. apply (filter_none' _ seen).
      intros e He. unfold Views.onDay.
      destruct (String.eqb_spec (dayOf e) (dayOf entry)) as [Heq|]; trivial.
      exfalso. apply Hnot. rewrite <- Heq. apply Hcover, He.
    + intros e He. rewrite map_app; simpl.
      apply in_app_or in He. destruct He as [He | [<- | []]].
      * apply in_or_app; left. apply Hcover, He.
      * apply in_or_app; right; left; reflexivity.
Qed.

Lemma entriesByDay_snoc seen entry :
  entriesByDay formatDate (seen ++ [entry]) =
  pushDay (dayOf entry) entry (entriesByDay formatDate seen).
Proof. unfold entriesByDay. rewrite fold_left_app. reflexivity. Qed.

Lemma entriesByDay_grouped seen : grouped (entriesByDay formatDate seen) seen.
Proof.
  induction seen as [|entry seen IH] using rev_ind.
  - split; [constructor | split; [constructor | intros e []]].
  - rewrite entriesByDay_snoc. apply grouped_push, IH.
Qed.

End Grouping.

(** *** The daily table *)

Lemma dailyStats_perm formatDate dateValue b timeEntries timeRange showBreaks :
  let s := stats formatDate dateValue b timeEntries timeRange showBreaks in
  Permutation (dailyStats s) (map dayStats (entriesByDay formatDate (filteredEntries s))).
Proof. simpl. rewrite sortDays_sortWith. apply sortWith_perm. Qed.

(** X3. The daily rows come newest first: they are the rows of the groups,
    rearranged so that no row is followed by one with a later date. *)
Theorem dailyStats_newest_first :
  forall formatDate dateValue b timeEntries timeRange showBreaks,
    let s := stats formatDate dateValue b timeEntries timeRange showBreaks in
    Permutation (dailyStats s) (map dayStats (entriesByDay formatDate (filteredEntries s))) /\
    descendingBy (fun day => dateValue (date day)) (dailyStats s).
Proof.
  intros. split; [apply dailyStats_perm|].
  simpl. rewrite sortDays_sortWith. apply sortWith_descending. reflexivity.
Qed.

Lemma dayStats_date day : date (dayStats day) = fst day.
Proof. reflexivity. Qed.

Lemma dailyStats_dates formatDate dateValue b timeEntries timeRange showBreaks :
  let s := stats formatDate dateValue b timeEntries timeRange showBreaks in
  Permutation (map date (dailyStats s))
              (map fst (entriesByDay formatDate (filteredEntries s))).
Proof.
  intros s.
  transitivity (map date (map dayStats (entriesByDay formatDate (filteredEntries s)))).
  - apply Permutation_map, dailyStats_perm.
  - rewrite map_map. reflexivity.
Qed.

Lemma dailyStats_dates_NoDup formatDate dateValue b timeEntries timeRange showBreaks :
  NoDup (map date (dailyStats (stats formatDate dateValue b timeEntries timeRange showBreaks))).
Proof.
  set (s := stats formatDate dateValue b timeEntries timeRange showBreaks).
  destruct (entriesByDay_grouped formatDate (filteredEntries s)) as (Hkeys & _).
  eapply Permutation_NoDup; [|exact Hkeys].
  symmetry. apply dailyStats_dates.
Qed.

(** X4. One row per day that has a displayed entry, and each row is computed
    from exactly the displayed entries of its day: no two rows have the same
    date, every displayed entry's day has a row, and a row's work time,
    break time and session count are those of the displayed entries whose
    date key is the row's (there is at least one). *)
Theorem dailyStats_one_row_per_day :
  forall formatDate dateValue b timeEntries timeRange showBreaks,
    let s := stats formatDate dateValue b timeEntries timeRange showBreaks in
    NoDup (map date (dailyStats s)) /\
    (forall entry,
       In entry (filteredEntries s) ->
       In (formatDate (startTime entry)) (map date (dailyStats s))) /\
    (forall row,
       In row (dailyStats s) ->
       let ofDay := filter (onDay formatDate (date row)) (filteredEntries s) in
       ofDay <> [] /\
       Types.totalWorkTime row = sumDuration (filter isWork ofDay) /\
       Types.totalBreakTime row =
         sumDuration (filter (fun e => isShortBreak e || isLongBreak e) ofDay) /\
       sessions row = List.length (filter isWork ofDay)).
Proof.
  intros formatDate dateValue b timeEntries timeRange showBreaks s.
  destruct (entriesByDay_grouped formatDate (filteredEntries s)) as (Hkeys & Hall & Hcover).
  pose proof (dailyStats_dates formatDate dateValue b timeEntries timeRange showBreaks)
    as Hdates. fold s in Hdates.
  split; [|split].
  - eapply Permutation_NoDup; [symmetry; exact Hdates | exact Hkeys].
  - intros entry Hin. eapply Permutation_in; [symmetry; exact Hdates|].
    apply Hcover, Hin.
  - intros row Hrow ofDay.
    apply (Permutation_in _ (dailyStats_perm _ _ _ _ _ _)) in Hrow.
    apply in_map_iff in Hrow. destruct Hrow as ([k es] & <- & Hg).
    rewrite Forall_forall in Hall. destruct (Hall _ Hg) as [Heq Hne]. simpl in *.
    unfold ofDay. simpl. rewrite <- Heq. auto.
Qed.

(** *** The daily rows add up to the summary *)

Section Conservation.
Variable formatDate : Date -> string.
Variable measure : list TimeEntry -> Z.
Variable weight : TimeEntry -> Z.
Hypothesis measure_nil : measure [] = 0.
Hypothesis measure_snoc : forall xs x, measure (xs ++ [x]) = measure xs + weight x.

Lemma pushDay_measure d entry acc :
  total (map (fun g => measure (snd g)) (pushDay d entry acc)) =
  total (map (fun g => measure (snd g)) acc) + weight entry.
Proof.
  induction acc as [|[k es] acc IH]; simpl.
  - change [entry] with ([] ++ [entry]). rewrite measure_snoc, measure_nil. lia.
  - destruct (String.eqb k d); simpl; [rewrite measure_snoc | rewrite IH]; lia.
Qed.

Lemma entriesByDay_measure xs :
  total (map (fun g => measure (snd g)) (entriesByDay formatDate xs)) = measure xs.
Proof.
  induction xs as [|x xs IH] using rev_ind; [simpl; symmetry; apply measure_nil|].
  rewrite entriesByDay_snoc, pushDay_measure, IH, measure_snoc. reflexivity.
Qed.

End Conservation.

Lemma total_perm xs ys : Permutation xs ys -> total xs = total ys.
Proof. induction 1; simpl; lia. Qed.

Lemma filter_filter_same {A} (f : A -> bool) xs : filter f (filter f xs) = filter f xs.
Proof.
  induction xs as [|x xs IH]; simpl; [reflexivity|].
  destruct (f x) eqn:Hf; simpl; [rewrite Hf, IH|]; auto.
Qed.

Lemma work_is_no_break entry :
  isWork entry = true -> isShortBreak entry || isLongBreak entry = false.
Proof.
  unfold isWork, isShortBreak, isLongBreak.
  intros H. apply String.eqb_eq in H. rewrite H. reflexivity.
Qed.

Lemma sumDuration_snoc f xs x :
  sumDuration (filter f (xs ++ [x])) =
  sumDuration (filter f xs) + (if f x then duration x else 0).
Proof.
  rewrite filter_app, sumDuration_app. simpl.
  destruct (f x); [rewrite sumDuration_cons|]; unfold sumDuration; simpl; lia.
Qed.

Lemma length_snoc f (xs : list TimeEntry) x :
  Z.of_nat (List.length (filter f (xs ++ [x]))) =
  Z.of_nat (List.length (filter f xs)) + (if f x then 1 else 0).
Proof.
  rewrite filter_app, length_app. simpl. destruct (f x); simpl; lia.
Qed.

(** X5. The columns of the daily table add up to the summary cards: the work
    times to the total work time and the session counts to the number of
    work sessions, whatever the break visibility; the break times to the
    total break time when breaks are shown, and to 0 when they are hidden. *)
Theorem dailyStats_add_up :
  forall formatDate dateValue b timeEntries timeRange showBreaks,
    let s := stats formatDate dateValue b timeEntries timeRange showBreaks in
    total (map Types.totalWorkTime (dailyStats s)) = totalWorkTime s /\
    total (map (fun row => Z.of_nat (sessions row)) (dailyStats s)) =
      Z.of_nat (workSessions s) /\
    total (map Types.totalBreakTime (dailyStats s)) =
      (if showBreaks then totalBreakTime s else 0).
Proof.
  intros formatDate dateValue b timeEntries timeRange showBreaks s.
  pose proof (dailyStats_perm formatDate dateValue b timeEntries timeRange showBreaks)
    as Hperm. fold s in Hperm.
  set (filtered := rangeFilter b timeRange timeEntries).
  assert (Hwork : filter isWork (filteredEntries s) = filter isWork filtered).
  { simpl. fold filtered. destruct showBreaks; simpl;
      [reflexivity | apply filter_filter_same]. }
  split; [|split].
  - rewrite (total_perm _ _ (Permutation_map _ Hperm)), map_map.
    rewrite (entriesByDay_measure formatDate
               (fun xs => sumDuration (filter isWork xs))
               (fun x => if isWork x then duration x else 0));
      [rewrite Hwork; reflexivity | reflexivity | intros; apply sumDuration_snoc].
  - rewrite (total_perm _ _ (Permutation_map _ Hperm)), map_map.
    rewrite (entriesByDay_measure formatDate
               (fun xs => Z.of_nat (List.length (filter isWork xs)))
               (fun x => if isWork x then 1 else 0));
      [rewrite Hwork; reflexivity | reflexivity | intros; apply length_snoc].
  - rewrite (total_perm _ _ (Permutation_map _ Hperm)), map_map.
    rewrite (entriesByDay_measure formatDate
               (fun xs => sumDuration (filter (fun e => isShortBreak e || isLongBreak e) xs))
               (fun x => if isShortBreak x || isLongBreak x then duration x else 0));
      [| reflexivity | intros; apply sumDuration_snoc].
    simpl. fold filtered. destruct showBreaks; simpl; [reflexivity|].
    rewrite (filter_none' _ (filter isWork filtered)); [reflexivity|].
    intros x Hx. apply filter_In in Hx. apply work_is_no_break, Hx.
Qed.

(** *** The highlighted row *)

Lemma unique_by_key {A} (f : A -> string) xs x :
  NoDup (map f xs) -> In x xs -> filter (fun y => String.eqb (f y) (f x)) xs = [x].
Proof.
  induction xs as [|y xs IH]; simpl; [tauto|].
  intros Hnodup [-> | Hin]; inversion Hnodup as [|? ? Hnot Hrest]; subst.
  - rewrite String.eqb_refl. f_equal. apply filter_none'.
    intros z Hz. destruct (String.eqb_spec (f z) (f x)) as [Heq|]; trivial.
    exfalso. apply Hnot. rewrite <- Heq. apply in_map, Hz.
  - destruct (String.eqb_spec (f y) (f x)) as [Heq|]; [|auto].
    exfalso. apply Hnot. rewrite Heq. apply in_map, Hin.
Qed.

Lemma mostProductive_In days best : mostProductive days = Some best -> In best days.
Proof.
  destruct days as [|first rest]; unfold mostProductive; [discriminate|]. intros [= <-].
  destruct (StatisticsFacts.fold_moreProductive_last rest first)
    as (before & d & after & Hsplit & -> & _).
  rewrite Hsplit. apply in_or_app; right; left; reflexivity.
Qed.

(** X6. Exactly the most productive day is highlighted in the daily table:
    one row whenever the table has rows, none when it is empty. *)
Theorem one_row_is_highlighted :
  forall formatDate dateValue b timeEntries timeRange showBreaks,
    let s := stats formatDate dateValue b timeEntries timeRange showBreaks in
    filter (highlighted s) (dailyStats s) =
      match mostProductiveDay s with
      | Some best => [best]
      | None => []
      end /\
    (mostProductiveDay s = None <-> dailyStats s = []).
Proof.
  intros formatDate dateValue b timeEntries timeRange showBreaks s.
  pose proof (dailyStats_dates_NoDup formatDate dateValue b timeEntries timeRange showBreaks)
    as Hnodup. fold s in Hnodup.
  unfold highlighted.
  change (mostProductiveDay s) with (mostProductive (dailyStats s)).
  destruct (mostProductive (dailyStats s)) as [best|] eqn:Hbest.
  - split.
    + apply (unique_by_key date); [exact Hnodup | apply mostProductive_In, Hbest].
    + split; [discriminate|]. intros Hnil. rewrite Hnil in Hbest. discriminate.
  - split.
    + apply filter_none'. reflexivity.
    + split; trivial. intros _. destruct (dailyStats s); [reflexivity | discriminate].
Qed.

(** *** The session list *)

(** X7. The sessions tab lists exactly the displayed entries, newest start
    first, and only work sessions when breaks are hidden. The sort is done
    in place on the array kept with the statistics, so a later render sorts
    the sorted array: that leaves it as it is, and the list shown stays the
    same. *)
Theorem sessionList_newest_first :
  forall formatDate dateValue b timeEntries timeRange showBreaks,
    let s := stats formatDate dateValue b timeEntries timeRange showBreaks in
    Permutation (sessionList s) (filteredEntries s) /\
    descendingBy startTime (sessionList s) /\
    sortWith (fun a b => startTime b - startTime a) (sessionList s) = sessionList s /\
    (showBreaks = false -> Forall (fun session => type session = "work") (sessionList s)).
Proof.
  intros formatDate dateValue b timeEntries timeRange showBreaks s.
  split; [apply sortWith_perm|]. split; [apply sortWith_descending; reflexivity|].
  split; [apply (sortWith_descending_same _ startTime);
          [reflexivity | apply sortWith_descending; reflexivity]|].
  intros ->. eapply Permutation_Forall; [symmetry; apply sortWith_perm|].
  simpl. apply Forall_forall. intros x Hx. apply filter_In in Hx.
  apply String.eqb_eq, Hx.
Qed.

Lemma filter_true_all {A} (xs : list A) : filter (fun _ => true) xs = xs.
Proof. induction xs; simpl; congruence. Qed.

(** *** Widening the time range *)

Lemma rangeFilter_inRange b timeRange timeEntries :
  rangeFilter b timeRange timeEntries = filter (inRange b timeRange) timeEntries.
Proof.
  destruct timeRange; simpl; trivial.
  induction timeEntries as [|x xs IH]; simpl; congruence.
Qed.

Lemma widerThan_boundaries b :
  startOfWeek b <= today b -> startOfMonth b <= today b ->
  widerThan b Week Today /\ widerThan b Month Today /\
  widerThan b All Week /\ widerThan b All Month /\ widerThan b All Today.
Proof.
  intros Hweek Hmonth. unfold widerThan, inRange.
  repeat split; intros entry; trivial; rewrite !Z.geb_le; lia.
Qed.

Section Widening.
Variables (p q g : TimeEntry -> bool).
Hypothesis p_implies_q : forall x, p x = true -> q x = true.

Lemma sumDuration_wider xs :
  Forall (fun x => 0 <= duration x) xs ->
  sumDuration (filter g (filter p xs)) <= sumDuration (filter g (filter q xs)).
Proof.
  induction 1 as [|x xs Hx _ IH]; simpl; [lia|].
  destruct (p x) eqn:Hp; [rewrite (p_implies_q x Hp)|destruct (q x)]; simpl;
    try destruct (g x); rewrite ?sumDuration_cons; lia.
Qed.

Lemma length_wider xs :
  (List.length (filter g (filter p xs)) <= List.length (filter g (filter q xs)))%nat.
Proof.
  induction xs as [|x xs IH]; simpl; [lia|].
  destruct (p x) eqn:Hp; [rewrite (p_implies_q x Hp)|destruct (q x)]; simpl;
    try destruct (g x); simpl; lia.
Qed.

Lemma filter_wider xs : filter p (filter q xs) = filter p xs.
Proof.
  induction xs as [|x xs IH]; simpl; [reflexivity|].
  destruct (q x) eqn:Hq; simpl; [rewrite IH; reflexivity|].
  destruct (p x) eqn:Hp; [|exact IH].
  rewrite (p_implies_q x Hp) in Hq. discriminate.
Qed.

End Widening.

(** X8. Widening the time range never loses anything: when one range starts
    no later than another, the entries of the narrower range are those of
    the wider one that pass the narrower test, the session counts do not
    decrease, and with durations that are not negative neither do the work
    and break totals. With the week and the month starting no later than
    today this orders today below week and month, and all of them below
    'all'. *)
Theorem wider_range_never_loses :
  forall formatDate dateValue b timeEntries showBreaks wide narrow,
    widerThan b wide narrow ->
    Forall (fun entry => 0 <= duration entry) timeEntries ->
    let sNarrow := stats formatDate dateValue b timeEntries narrow showBreaks in
    let sWide := stats formatDate dateValue b timeEntries wide showBreaks in
    rangeFilter b narrow timeEntries = rangeFilter b narrow (rangeFilter b wide timeEntries) /\
    totalWorkTime sNarrow <= totalWorkTime sWide /\
    totalBreakTime sNarrow <= totalBreakTime sWide /\
    (workSessions sNarrow <= workSessions sWide)%nat /\
    (List.length (filteredEntries sNarrow) <= List.length (filteredEntries sWide))%nat.
Proof.
  intros formatDate dateValue b timeEntries showBreaks wide narrow Hwider Hpos.
  simpl. rewrite !rangeFilter_inRange.
  split; [symmetry; apply filter_wider, Hwider|].
  split; [apply sumDuration_wider; assumption|].
  split; [apply sumDuration_wider; assumption|].
  split; [apply length_wider; assumption|].
  destruct showBreaks; simpl.
  - rewrite <- (filter_true_all (filter (inRange b narrow) timeEntries)),
            <- (filter_true_all (filter (inRange b wide) timeEntries)).
    apply length_wider, Hwider.
  - apply length_wider, Hwider.
Qed.

Lemma wider_range_never_loses_witness :
  widerThan Samples.bounds All Today /\
  Forall (fun entry => 0 <= duration entry) [Samples.yesterdayEntry] /\
  totalWorkTime (stats Samples.dayKey Samples.keyInstant Samples.bounds
                       [Samples.yesterdayEntry] Today true) <=
  totalWorkTime (stats Samples.dayKey Samples.keyInstant Samples.bounds
                       [Samples.yesterdayEntry] All true).
Proof.
  assert (Hwider : widerThan Samples.bounds All Today) by (intros entry _; reflexivity).
  assert (Hpos : Forall (fun entry => 0 <= duration entry) [Samples.yesterdayEntry])
    by (repeat constructor; simpl; lia).
  split; [exact Hwider|]. split; [exact Hpos|].
  exact (proj1 (proj2 (wider_range_never_loses Samples.dayKey Samples.keyInstant Samples.bounds
                         [Samples.yesterdayEntry] true All Today Hwider Hpos))).
Defined.

End StatisticsMore.

(** ** Properties of runs of the machine *)

Module MachineMore.
Import Types JS Statistics App Timer Machine Samples Traces MoreSamples MachineFacts.
Import Views StatisticsMore.

(** *** A running session and its target *)

(** X9. While the timer view is open, no step leaves a session running at or
    past its target: after every event the elapsed time of a running session
    is below the configured duration for its type. *)
Theorem running_session_is_below_target :
  forall st now e session,
    let st' := step st now e in
    activeTab st' = timer ->
    currentSession st' = Some session ->
    isRunning st' = true ->
    elapsedTime st' < targetDuration (settings st') session.
Proof.
  intros st now e session st' Htab Hsession Hrun.
  pose proof (effects_settle (commit st (handle st now e)) now now Htab) as Hquiet.
  fold (step st now e) in Hquiet. fold st' in Hquiet.
  unfold completionEffect in Hquiet. rewrite Hsession, Hrun in Hquiet. simpl in Hquiet.
  unfold targetDuration.
  destruct (Z.geb_spec (elapsedTime st')
              (if String.eqb (type session) "work"
               then workDuration (settings st') else breakDuration (settings st')));
    [|assumption].
  exfalso. unfold stopTimer in Hquiet. rewrite Hsession in Hquiet.
  destruct (String.eqb (type session) "work" && autoStartBreaks (settings st'));
    [discriminate|].
  destruct (String.eqb (type session) "break" && autoStartWork (settings st'));
    discriminate.
Qed.

Lemma running_session_is_below_target_witness :
  activeTab (step freshState 0 Start) = timer /\
  currentSession (step freshState 0 Start) = Some workSession /\
  isRunning (step freshState 0 Start) = true /\
  elapsedTime (step freshState 0 Start) <
    targetDuration (settings (step freshState 0 Start)) workSession.
Proof.
  split; [reflexivity|]. split; [reflexivity|]. split; [reflexivity|].
  exact (running_session_is_below_target freshState 0 Start workSession
           eq_refl eq_refl eq_refl).
Defined.

(** *** Ticks *)

Lemma withElapsed_same st : withElapsed st (elapsedTime st) = st.
Proof. destruct st; reflexivity. Qed.

Lemma withElapsed_twice st a b : withElapsed (withElapsed st a) b = withElapsed st b.
Proof. reflexivity. Qed.

Lemma runEffects_not_running fuel now st : isRunning st = false -> runEffects fuel now st = st.
Proof.
  intros Hrun. apply runEffects_quiet. intros _.
  unfold completionEffect. rewrite Hrun. destruct (currentSession st); reflexivity.
Qed.

Lemma runEffects_other_tab fuel now st : activeTab st <> timer -> runEffects fuel now st = st.
Proof. intros Htab. apply runEffects_quiet. tauto. Qed.

Lemma runEffects_below_target fuel now st session :
  currentSession st = Some session ->
  elapsedTime st < targetDuration (settings st) session ->
  runEffects fuel now st = st.
Proof.
  intros Hsession Hbelow. apply runEffects_quiet. intros _.
  unfold completionEffect. rewrite Hsession. destruct (isRunning st); simpl; trivial.
  unfold targetDuration in Hbelow.
  destruct (Z.geb_spec (elapsedTime st)
              (if String.eqb (type session) "work"
               then workDuration (settings st) else breakDuration (settings st)));
    [lia | reflexivity].
Qed.

Lemma step_tick_running st now session :
  isRunning st = true ->
  currentSession st = Some session ->
  activeTab st <> timer \/ elapsedTime st + 1 < targetDuration (settings st) session ->
  step st now Tick = withElapsed st (elapsedTime st + 1).
Proof.
  intros Hrun Hsession Hcond. unfold step, handle, tick. rewrite Hrun.
  change (commit st [setElapsedTime (fun prevTime => prevTime + 1)])
    with (withElapsed st (elapsedTime st + 1)).
  destruct Hcond as [Htab | Hbelow].
  - apply runEffects_other_tab. exact Htab.
  - apply (runEffects_below_target _ _ _ session); [exact Hsession | exact Hbelow].
Qed.

Lemma step_tick_not_running st now : isRunning st = false -> step st now Tick = st.
Proof.
  intros Hrun. unfold step, handle, tick. rewrite Hrun.
  apply runEffects_not_running, Hrun.
Qed.

Lemma run_app st trace1 trace2 : run st (trace1 ++ trace2) = run (run st trace1) trace2.
Proof. apply fold_left_app. Qed.

Lemma run_ticks_running times : forall st session,
  isRunning st = true ->
  currentSession st = Some session ->
  activeTab st <> timer \/
    elapsedTime st + Z.of_nat (List.length times) < targetDuration (settings st) session ->
  run st (ticksAt times) = withElapsed st (elapsedTime st + Z.of_nat (List.length times)).
Proof.
  induction times as [|t times IH]; intros st session Hrun Hsession Hcond.
  - simpl. rewrite Z.add_0_r. symmetry. apply withElapsed_same.
  - cbn [ticksAt map run fold_left fst snd].
    rewrite (step_tick_running st t session Hrun Hsession)
      by (destruct Hcond as [H | H]; [left; exact H | right; simpl List.length in H; lia]).
    change (fold_left (fun s timed => step s (fst timed) (snd timed))
                      (map (fun t0 => (t0, Tick)) times))
      with (fun s => run s (ticksAt times)).
    cbv beta. rewrite (IH _ session); trivial.
    + rewrite withElapsed_twice. f_equal. simpl elapsedTime. simpl List.length. lia.
    + destruct Hcond as [H | H]; [left; exact H | right].
      simpl elapsedTime. simpl List.length in H. simpl settings. lia.
Qed.

Lemma run_ticks_not_running times : forall st,
  isRunning st = false -> run st (ticksAt times) = st.
Proof.
  induction times as [|t times IH]; intros st Hrun; [reflexivity|].
  cbn [ticksAt map run fold_left fst snd]. rewrite step_tick_not_running by exact Hrun.
  apply IH, Hrun.
Qed.

Lemma tab_eq_dec (a b : Tab) : {a = b} + {a <> b}.
Proof. decide equality. Qed.

(** *** Whole sessions *)

Lemma step_start_at_rest st now :
  atRest st ->
  (activeTab st = timer -> 0 < workDuration (settings st)) ->
  step st now Start =
    applyUpdate (applyUpdate st (setIsRunning true))
                (setCurrentSession (Some (newEntry st now "work"))).
Proof.
  intros (Hsession & Hrun & Hzero) Hpos. unfold step, handle, startTimer.
  rewrite Hrun, Hsession. cbn [negb commit fold_left].
  destruct (tab_eq_dec (activeTab st) timer) as [Htab | Htab].
  - apply (runEffects_below_target _ _ _ (newEntry st now "work")); [reflexivity|].
    simpl. rewrite Hzero. apply Hpos, Htab.
  - apply runEffects_other_tab. exact Htab.
Qed.

Lemma step_stop st now session :
  currentSession st = Some session ->
  step st now Stop =
    mkState (activeTab st) false None (userId st)
            (timeEntries st ++ [finalize session now (elapsedTime st)]) 0 (settings st).
Proof.
  intros Hsession. unfold step, handle, stopTimer. rewrite Hsession.
  apply runEffects_not_running. reflexivity.
Qed.

(** X10. Start, any number of ticks, stop: from rest the machine persists
    exactly one entry and is at rest again. The entry is a work session
    whose duration is the number of ticks, started at the instant of the
    start and ended at the instant of the stop. With the timer view open
    this needs fewer ticks than the work duration (otherwise the session is
    completed before the stop). *)
Theorem start_ticks_stop_persists_one_entry :
  forall st t0 times t1,
    atRest st ->
    (activeTab st = timer -> Z.of_nat (List.length times) < workDuration (settings st)) ->
    run st ((t0, Start) :: ticksAt times ++ [(t1, Stop)]) =
      withEntry st {| id := t0;
                      startTime := t0;
                      endTime := Some t1;
                      duration := Z.of_nat (List.length times);
                      type := "work";
                      notes := "";
                      Types.userId := Some (userId st) |}.
Proof.
  intros st t0 times t1 Hrest Hbelow.
  change (run st ((t0, Start) :: ticksAt times ++ [(t1, Stop)]))
    with (run (step st t0 Start) (ticksAt times ++ [(t1, Stop)])).
  rewrite step_start_at_rest; [|exact Hrest | intros Htab; specialize (Hbelow Htab); lia].
  destruct Hrest as (Hsession & Hrun & Hzero).
  rewrite run_app.
  rewrite (run_ticks_running times _ (newEntry st t0 "work")); [|reflexivity|reflexivity|].
  - cbn [run fold_left fst snd].
    rewrite (step_stop _ _ (newEntry st t0 "work")) by reflexivity.
    destruct st as [tab run0 session uid entries elapsed conf]; simpl in *. subst.
    reflexivity.
  - destruct (tab_eq_dec (activeTab st) timer) as [Htab | Htab]; [right | left; exact Htab].
    simpl. rewrite Hzero. apply Hbelow, Htab.
Qed.

Lemma start_ticks_stop_persists_one_entry_witness :
  atRest freshState /\
  timeEntries (run freshState ((0, Start) :: ticksAt [1000; 2000] ++ [(2500, Stop)])) =
    [finalize workSession 2500 2].
Proof.
  assert (Hrest : atRest freshState) by (repeat split).
  split; [exact Hrest|].
  exact (f_equal timeEntries
           (start_ticks_stop_persists_one_entry freshState 0 [1000; 2000] 2500 Hrest
              (fun _ => eq_refl))).
Defined.

(** X11. Pausing stops the count and resuming continues the same session:
    start, ticks, pause, resume, ticks, stop persists one work entry whose
    duration is the number of ticks received while running; nothing is
    counted while paused. *)
Theorem pause_and_resume_keep_one_session :
  forall st t0 before tp paused tr after t1,
    atRest st ->
    (activeTab st = timer ->
     Z.of_nat (List.length before + List.length after) < workDuration (settings st)) ->
    run st ((t0, Start) :: ticksAt before ++ (tp, Pause) :: ticksAt paused ++
            (tr, Start) :: ticksAt after ++ [(t1, Stop)]) =
      withEntry st {| id := t0;
                      startTime := t0;
                      endTime := Some t1;
                      duration := Z.of_nat (List.length before + List.length after);
                      type := "work";
                      notes := "";
                      Types.userId := Some (userId st) |}.
Proof.
  intros st t0 before tp paused tr after t1 Hrest Hbelow.
  change (run st ((t0, Start) :: ?rest)) with (run (step st t0 Start) rest).
  rewrite step_start_at_rest; [|exact Hrest | intros Htab; specialize (Hbelow Htab); lia].
  destruct Hrest as (Hsession & Hrun & Hzero).
  assert (Hcond : forall n, (n <= List.length before + List.length after)%nat ->
            activeTab st <> timer \/ Z.of_nat n < workDuration (settings st)).
  { intros n Hn. destruct (tab_eq_dec (activeTab st) timer) as [Htab | Htab];
      [right; specialize (Hbelow Htab); lia | left; exact Htab]. }
  rewrite run_app.
  rewrite (run_ticks_running before _ (newEntry st t0 "work")); [|reflexivity|reflexivity|].
  2: { destruct (Hcond (List.length before) ltac:(lia)); [left|right]; simpl; trivial.
       rewrite Hzero. assumption. }
  change (run ?s ((tp, Pause) :: ?rest)) with (run (step s tp Pause) rest).
  unfold step at 1, handle, pauseTimer.
  rewrite runEffects_not_running by reflexivity.
  rewrite run_app, run_ticks_not_running by reflexivity.
  change (run ?s ((tr, Start) :: ?rest)) with (run (step s tr Start) rest).
  unfold step at 1, handle, startTimer. cbn [commit fold_left isRunning negb currentSession
    withElapsed applyUpdate].
  rewrite (runEffects_quiet 2 tr).
  2: { intros Htab. simpl in Htab.
       destruct (Hcond (List.length before) ltac:(lia)) as [H | H]; [tauto|].
       unfold completionEffect; simpl. rewrite Hzero.
       destruct (Z.geb_spec (0 + Z.of_nat (List.length before)) (workDuration (settings st)));
         [lia | reflexivity]. }
  rewrite run_app.
  rewrite (run_ticks_running after _ (newEntry st t0 "work")); [|reflexivity|reflexivity|].
  2: { destruct (Hcond (List.length before + List.length after)%nat ltac:(lia));
         [left|right]; simpl; trivial. rewrite Hzero.
       change (targetDuration (settings st) (newEntry st t0 "work"))
         with (workDuration (settings st)). lia. }
  cbn [run fold_left fst snd].
  rewrite (step_stop _ _ (newEntry st t0 "work")) by reflexivity.
  destruct st as [tab run0 session uid entries elapsed conf]; simpl in *. subst.
  unfold withEntry; simpl. do 3 f_equal. unfold finalize; simpl. f_equal. lia.
Qed.

Lemma pause_and_resume_keep_one_session_witness :
  atRest freshState /\
  timeEntries (run freshState ((0, Start) :: ticksAt [1000] ++ (1500, Pause) ::
                               ticksAt [2000; 3000] ++ (3500, Start) ::
                               ticksAt [4500] ++ [(5000, Stop)])) =
    [finalize workSession 5000 2].
Proof.
  assert (Hrest : atRest freshState) by (repeat split).
  split; [exact Hrest|].
  exact (f_equal timeEntries
           (pause_and_resume_keep_one_session freshState 0 [1000] 1500 [2000; 3000] 3500
              [4500] 5000 Hrest (fun _ => eq_refl))).
Defined.

(** X12. Away from the timer view nothing completes a session: it keeps
    counting past its target, and it is stopped when the timer view is
    opened again, with everything it counted as its duration. (Auto-start is
    off here; the duration persisted is at least the target and grows with
    the time spent away.) *)
Theorem session_overruns_away_from_timer_view :
  forall st session times t,
    activeTab st <> timer ->
    isRunning st = true ->
    currentSession st = Some session ->
    autoStartBreaks (settings st) = false ->
    autoStartWork (settings st) = false ->
    targetDuration (settings st) session <= elapsedTime st + Z.of_nat (List.length times) ->
    run st (ticksAt times) = withElapsed st (elapsedTime st + Z.of_nat (List.length times)) /\
    run st (ticksAt times ++ [(t, SelectTab timer)]) =
      mkState timer false None (userId st)
              (timeEntries st ++
               [finalize session t (elapsedTime st + Z.of_nat (List.length times))])
              0 (settings st).
Proof.
  intros st session times t Htab Hrun Hsession Hbreaks Hwork Htarget.
  assert (Hticks := run_ticks_running times st session Hrun Hsession (or_introl Htab)).
  split; [exact Hticks|].
  rewrite run_app, Hticks. clear Hticks. cbn [run fold_left fst snd].
  unfold targetDuration in Htarget.
  remember (elapsedTime st + Z.of_nat (List.length times)) as counted eqn:Hcounted.
  destruct st as [tab run0 current uid entries elapsed conf]; simpl in *. subst run0 current.
  unfold step, handle. cbn [commit fold_left applyUpdate withElapsed].
  cbn [activeTab isRunning currentSession userId timeEntries elapsedTime settings].
  rewrite runEffects_S. cbn [activeTab]. unfold completionEffect.
  cbn [activeTab isRunning currentSession userId timeEntries elapsedTime settings negb].
  rewrite Hbreaks, Hwork, !andb_false_r.
  destruct (Z.geb_spec counted
              (if String.eqb (type session) "work"
               then workDuration conf else breakDuration conf)); [|lia].
  unfold stopTimer. cbn [currentSession elapsedTime commit fold_left applyUpdate].
  cbn [activeTab isRunning currentSession userId timeEntries elapsedTime settings].
  apply runEffects_not_running. reflexivity.
Qed.

Lemma session_overruns_away_from_timer_view_witness :
  activeTab awayState <> timer /\
  targetDuration (settings awayState) workSession <= elapsedTime awayState + 2 /\
  elapsedTime (run awayState (ticksAt [1500000; 1501000])) = 1501 /\
  timeEntries (run awayState (ticksAt [1500000; 1501000] ++ [(1501500, SelectTab timer)])) =
    [finalize workSession 1501500 1501].
Proof.
  assert (Htab : activeTab awayState <> timer) by discriminate.
  assert (Htarget : targetDuration (settings awayState) workSession
                    <= elapsedTime awayState + Z.of_nat (List.length [1500000; 1501000]))
    by (vm_compute; discriminate).
  pose proof (session_overruns_away_from_timer_view awayState workSession
                [1500000; 1501000] 1501500 Htab eq_refl eq_refl eq_refl eq_refl Htarget)
    as [Hticks Hback].
  split; [exact Htab|]. split; [exact Htarget|].
  split; [exact (f_equal elapsedTime Hticks) | exact (f_equal timeEntries Hback)].
Defined.

(** *** The entry list only grows *)

Lemma extends_refl entries now : extends entries entries now.
Proof. exists []. rewrite app_nil_r. split; [reflexivity | constructor]. Qed.

Lemma extends_snoc before after now entry :
  extends before after now -> endTime entry = Some now ->
  extends before (after ++ [entry]) now.
Proof.
  intros (added & -> & Hall) Hend. exists (added ++ [entry]).
  rewrite app_assoc. split; [reflexivity|].
  apply Forall_app; split; [exact Hall | constructor; [exact Hend | constructor]].
Qed.

Lemma runEffects_preserves_at (P : State -> Prop) now :
  (forall st, P st -> P (commit st (completionEffect st now))) ->
  forall fuel st, P st -> P (runEffects fuel now st).
Proof.
  intros Heffect fuel. induction fuel as [|fuel IH]; intros st HP; [exact HP|].
  rewrite runEffects_S. destruct (activeTab st); trivial.
  destruct (completionEffect st now) as [|u q] eqn:Hq; trivial.
  apply IH. rewrite <- Hq. apply Heffect, HP.
Qed.

Lemma effect_extends before now st :
  extends before (timeEntries st) now ->
  extends before (timeEntries (commit st (completionEffect st now))) now.
Proof.
  effect_cases st; unfold_handlers; simpl; intros H; trivial;
    repeat apply extends_snoc; trivial.
Qed.

(** X13. No event but a confirmed clearing removes or changes a persisted
    entry: after the step the entry list is the old one followed by the
    entries the step added, each of them ended at the instant of the event. *)
Theorem entries_are_only_appended :
  forall st now e,
    e = ClearStatistics true \/ extends (timeEntries st) (timeEntries (step st now e)) now.
Proof.
  intros st now e.
  destruct e as [| | | | | note | | tab' | conf' | | [|]];
    try (left; reflexivity); right; unfold step;
    apply (runEffects_preserves_at (fun s => extends (timeEntries st) (timeEntries s) now));
    try (intros s; apply effect_extends);
    destruct st as [tab run [session|] uid entries elapsed conf];
    unfold_handlers; simpl; try destruct run; simpl;
    repeat apply extends_snoc; try apply extends_refl; reflexivity.
Qed.

(** *** Notes *)

(** X14. The notes persisted with a session are the last ones typed: typing
    replaces the notes of the current session (it does not add to them) and
    touches no persisted entry, and stopping persists the session with them.
    Without a session typing changes nothing. *)
Theorem last_notes_are_persisted :
  forall st session first last t1 t2 t3,
    currentSession st = Some session ->
    (activeTab st = timer -> isRunning st = true ->
     elapsedTime st < targetDuration (settings st) session) ->
    run st [(t1, AddNote first); (t2, AddNote last)] =
      applyUpdate st (setCurrentSession (Some (withNotes session last))) /\
    run st [(t1, AddNote first); (t2, AddNote last); (t3, Stop)] =
      mkState (activeTab st) false None (userId st)
              (timeEntries st ++ [finalize (withNotes session last) t3 (elapsedTime st)])
              0 (settings st).
Proof.
  intros st session first last t1 t2 t3 Hsession Hquiet.
  assert (Hnote : forall s current note t,
            currentSession s = Some current ->
            (activeTab s = timer -> isRunning s = true ->
             elapsedTime s < targetDuration (settings s) current) ->
            step s t (AddNote note) =
              applyUpdate s (setCurrentSession (Some (withNotes current note)))).
  { intros s current note t Hs Hq. unfold step, handle, addNoteToCurrentSession.
    rewrite Hs. cbn [commit fold_left]. fold (withNotes current note).
    apply runEffects_quiet. intros Htab.
    unfold completionEffect. cbn [currentSession applyUpdate isRunning].
    destruct (isRunning s) eqn:Hrun; [|reflexivity]. cbn [negb].
    specialize (Hq Htab eq_refl). unfold targetDuration in Hq.
    cbn [elapsedTime settings withNotes type].
    destruct (Z.geb_spec (elapsedTime s)
                (if String.eqb (type current) "work"
                 then workDuration (settings s) else breakDuration (settings s)));
      [lia | reflexivity]. }
  assert (Htwo : run st [(t1, AddNote first); (t2, AddNote last)] =
                 applyUpdate st (setCurrentSession (Some (withNotes session last)))).
  { cbn [run fold_left fst snd].
    rewrite (Hnote st session first t1 Hsession Hquiet).
    rewrite (Hnote _ (withNotes session first) last t2); [reflexivity | reflexivity|].
    exact Hquiet. }
  split; [exact Htwo|].
  change [(t1, AddNote first); (t2, AddNote last); (t3, Stop)]
    with ([(t1, AddNote first); (t2, AddNote last)] ++ [(t3, Stop)]).
  rewrite run_app, Htwo. cbn [run fold_left fst snd].
  rewrite (step_stop _ _ (withNotes session last)) by reflexivity.
  reflexivity.
Qed.

Lemma last_notes_are_persisted_witness :
  currentSession almostDone = Some workSession /\
  elapsedTime almostDone < targetDuration (settings almostDone) workSession /\
  timeEntries (run almostDone [(100, AddNote "dra"); (200, AddNote "draft"); (300, Stop)]) =
    [finalize (withNotes workSession "draft") 300 1499].
Proof.
  assert (Hbelow : elapsedTime almostDone < targetDuration (settings almostDone) workSession)
    by reflexivity.
  split; [reflexivity|]. split; [exact Hbelow|].
  exact (f_equal timeEntries
           (proj2 (last_notes_are_persisted almostDone workSession "dra" "draft" 100 200 300
                     eq_refl (fun _ _ => Hbelow)))).
Defined.

Lemma addNote_at_rest st now note : currentSession st = None -> isRunning st = false ->
  step st now (AddNote note) = st.
Proof.
  intros Hsession Hrun. unfold step, handle, addNoteToCurrentSession. rewrite Hsession.
  apply runEffects_not_running, Hrun.
Qed.

(** *** A work duration of 0 *)

(** With a work duration of 0 or less and the timer view open, a work
    session is completed in the step that starts it: an entry of duration
    0 is persisted and the machine is at rest again (automatic breaks
    off). *)
Lemma start_with_zero_work_duration :
  forall st now,
    atRest st ->
    activeTab st = timer ->
    workDuration (settings st) <= 0 ->
    autoStartBreaks (settings st) = false ->
    step st now Start =
      withEntry st {| id := now;
                      startTime := now;
                      endTime := Some now;
                      duration := 0;
                      type := "work";
                      notes := "";
                      Types.userId := Some (userId st) |}.
Proof.
  intros st now (Hsession & Hrun & Hzero) Htab Hwork Hbreaks.
  destruct st as [tab run0 current uid entries elapsed conf]; simpl in *. subst.
  unfold step, handle, startTimer. cbn [isRunning negb currentSession commit fold_left applyUpdate].
  cbn [activeTab isRunning currentSession userId timeEntries elapsedTime settings].
  rewrite runEffects_S. cbn [activeTab]. unfold completionEffect.
  cbn [activeTab isRunning currentSession userId timeEntries elapsedTime settings negb
       newEntry type]. rewrite Hbreaks. simpl String.eqb. cbn [andb].
  destruct (Z.geb_spec 0 (workDuration conf)); [|lia].
  unfold stopTimer. cbn [currentSession elapsedTime commit fold_left applyUpdate].
  cbn [activeTab isRunning currentSession userId timeEntries elapsedTime settings].
  rewrite runEffects_not_running by reflexivity. reflexivity.
Qed.

Lemma rangeFilter_Forall (P : TimeEntry -> Prop) b timeRange timeEntries :
  Forall P timeEntries -> Forall P (rangeFilter b timeRange timeEntries).
Proof. destruct timeRange; simpl; auto using Forall_filter. Qed.

(** *** Ownership and signs *)

Ltac solve_state_invariant :=
  unfold_handlers; simpl; intuition (subst; simpl in *; auto);
  repeat first
    [ assumption
    | apply Forall_nil
    | apply Forall_snoc
    | reflexivity
    | lia ].

Lemma handle_owned owner st now e :
  ownedState owner st -> ownedState owner (commit st (handle st now e)).
Proof.
  unfold ownedState, ownedBy.
  destruct st as [tab run [session|] uid entries elapsed conf];
    destruct e as [| | | | | note | | tab' | conf' | | confirmed];
    try destruct run; try destruct confirmed; solve_state_invariant.
Qed.

Lemma effect_owned owner st now :
  ownedState owner st -> ownedState owner (commit st (completionEffect st now)).
Proof.
  unfold ownedState, ownedBy. effect_cases st; solve_state_invariant.
Qed.

Lemma handle_counted st now e :
  countedState st -> countedState (commit st (handle st now e)).
Proof.
  unfold countedState.
  destruct st as [tab run [session|] uid entries elapsed conf];
    destruct e as [| | | | | note | | tab' | conf' | | confirmed];
    try destruct run; try destruct confirmed; solve_state_invariant.
Qed.

Lemma effect_counted st now :
  countedState st -> countedState (commit st (completionEffect st now)).
Proof.
  unfold countedState. effect_cases st; solve_state_invariant.
Qed.

Lemma filter_all {A} (f : A -> bool) xs : Forall (fun x => f x = true) xs -> filter f xs = xs.
Proof.
  induction 1 as [|x xs Hx _ IH]; simpl; [reflexivity|]. rewrite Hx, IH. reflexivity.
Qed.

(** X15. The statistics view is handed every persisted entry: the owner
    never changes, every entry the machine persists carries the owner's id,
    and so the filter on the owner drops nothing (the loaded entries being
    the owner's). *)
Theorem statistics_sees_every_entry :
  forall init st,
    isInitial init ->
    Forall (ownedBy (userId init)) (timeEntries init) ->
    reachable init st ->
    userId st = userId init /\
    Forall (ownedBy (userId init)) (timeEntries st) /\
    statisticsEntries st = timeEntries st.
Proof.
  intros init st (uid & entries & conf & ->) Hloaded Hreach. simpl in *.
  assert (Howned : ownedState uid st).
  { apply (reachable_preserves (ownedState uid) (initialState uid entries conf)); trivial.
    - apply step_preserves; [apply handle_owned | apply effect_owned].
    - split; [reflexivity | split; [exact Hloaded | exact I]]. }
  destruct Howned as (Hid & Hall & _). split; [exact Hid|]. split; [exact Hall|].
  unfold statisticsEntries. apply filter_all.
  eapply Forall_impl; [|exact Hall]. unfold ownedBy. intros entry ->.
  rewrite Hid. apply String.eqb_refl.
Qed.

Lemma statistics_sees_every_entry_witness :
  isInitial freshState /\
  reachable freshState afterOneBreak /\
  statisticsEntries afterOneBreak = timeEntries afterOneBreak.
Proof.
  assert (Hinit : isInitial freshState)
    by (exists "u1", [], autoBreakSettings; reflexivity).
  assert (Hreach : reachable freshState afterOneBreak)
    by (unfold afterOneBreak; repeat apply reachable_step; apply reachable_init).
  split; [exact Hinit|]. split; [exact Hreach|].
  exact (proj2 (proj2 (statistics_sees_every_entry freshState afterOneBreak Hinit
                         (Forall_nil _) Hreach))).
Defined.

Lemma sumDuration_nonneg xs :
  Forall (fun entry => 0 <= duration entry) xs -> 0 <= sumDuration xs.
Proof.
  induction 1 as [|x xs Hx _ IH]; [unfold sumDuration; simpl; lia|].
  rewrite sumDuration_cons. lia.
Qed.

(** X16. Elapsed time and durations are never negative: the elapsed time
    starts at 0 and only ticks move it, a persisted duration is the elapsed
    time at the stop, and so every work and break total is at least 0 (the
    loaded durations being so). *)
Theorem times_are_never_negative :
  forall init st,
    isInitial init ->
    Forall (fun entry => 0 <= duration entry) (timeEntries init) ->
    reachable init st ->
    0 <= elapsedTime st /\
    Forall (fun entry => 0 <= duration entry) (timeEntries st) /\
    (forall formatDate dateValue b timeRange showBreaks,
       let s := stats formatDate dateValue b (statisticsEntries st) timeRange showBreaks in
       0 <= totalWorkTime s /\ 0 <= totalBreakTime s).
Proof.
  intros init st (uid & entries & conf & ->) Hloaded Hreach. simpl in *.
  assert (Hcounted : countedState st).
  { apply (reachable_preserves countedState (initialState uid entries conf)); trivial.
    - apply step_preserves; [apply handle_counted | apply effect_counted].
    - split; [simpl; lia | exact Hloaded]. }
  destruct Hcounted as [Helapsed Hall]. split; [exact Helapsed|]. split; [exact Hall|].
  intros. simpl. split; apply sumDuration_nonneg; apply Forall_filter;
    apply rangeFilter_Forall; apply Forall_filter; exact Hall.
Qed.

Lemma times_are_never_negative_witness :
  isInitial freshState /\
  reachable freshState afterOneBreak /\
  0 <= elapsedTime afterOneBreak /\
  Forall (fun entry => 0 <= duration entry) (timeEntries afterOneBreak).
Proof.
  assert (Hinit : isInitial freshState)
    by (exists "u1", [], autoBreakSettings; reflexivity).
  assert (Hreach : reachable freshState afterOneBreak)
    by (unfold afterOneBreak; repeat apply reachable_step; apply reachable_init).
  pose proof (times_are_never_negative freshState afterOneBreak Hinit (Forall_nil _) Hreach)
    as (Helapsed & Hall & _).
  split; [exact Hinit|]. split; [exact Hreach|]. split; [exact Helapsed | exact Hall].
Defined.

(** *** The score of the machine's entries *)

Lemma scoreOfTotals_no_break W : scoreOfTotals W (Z2F 0) = 0 \/ scoreOfTotals W (Z2F 0) = 50.
Proof.
  unfold scoreOfTotals, workBreakRatio.
  destruct (W =? 0)%float; destruct (0 <? W)%float; vm_compute; auto.
Qed.

(** X17. On entries the machine persisted the productivity score is 0 or 50,
    whatever was recorded: no entry counts as break time, so the ratio is
    the saturated 100 as soon as there is work time, and the score bar is
    red. *)
Theorem machine_score_is_0_or_50 :
  forall init st,
    isInitial init -> timeEntries init = [] -> reachable init st ->
    forall formatDate dateValue b timeRange showBreaks,
      let s := stats formatDate dateValue b (statisticsEntries st) timeRange showBreaks in
      (productivityScore s = 0 \/ productivityScore s = 50) /\
      scoreColour (productivityScore s) = "bg-red-500".
Proof.
  intros init st (uid & entries & conf & ->) Hempty Hreach. simpl in Hempty. subst entries.
  intros formatDate dateValue b timeRange showBreaks s.
  assert (Htyped : typedState st).
  { apply (reachable_typed (initialState uid [] conf)); trivial. split; [constructor | exact I]. }
  destruct Htyped as [Hentries _].
  assert (Hbreak : totalBreakTime s = 0).
  { apply typed_stats_no_breaks. apply Forall_filter, Hentries. }
  unfold productivityScore. rewrite Hbreak.
  destruct (scoreOfTotals_no_break (Z2F (totalWorkTime s))) as [-> | ->];
    split; auto.
Qed.

Lemma machine_score_is_0_or_50_witness :
  isInitial freshState /\
  timeEntries freshState = [] /\
  reachable freshState afterOneBreak /\
  scoreColour (productivityScore
                 (stats dayKey keyInstant bounds (statisticsEntries afterOneBreak) All true)) =
    "bg-red-500".
Proof.
  assert (Hinit : isInitial freshState)
    by (exists "u1", [], autoBreakSettings; reflexivity).
  assert (Hreach : reachable freshState afterOneBreak)
    by (unfold afterOneBreak; repeat apply reachable_step; apply reachable_init).
  split; [exact Hinit|]. split; [reflexivity|]. split; [exact Hreach|].
  exact (proj2 (machine_score_is_0_or_50 freshState afterOneBreak Hinit eq_refl Hreach
                  dayKey keyInstant bounds All true)).
Defined.

End MachineMore.

(** ** Properties of the settings form and of the timer view *)

Module ViewFacts.
Import Types JS Statistics App Timer Machine Samples Traces MoreSamples.
Import MachineFacts MachineMore SettingsForm TimerView.

Lemma secondsToMinutes_is_Math_floor_upto_a_day :
  floorAgreesFrom 0 (Z.to_nat 86401) = true.
Proof. vm_compute. reflexivity. Qed.

(** X18. Minutes typed into a duration field come back as they were typed:
    the field of the stored seconds shows the same number (an empty field
    for 0), and an emptied field stores 0 seconds. The other way round only
    whole minutes survive: a stored duration is shown without its odd
    seconds, and typing the shown number stores the duration rounded down to
    the minute. *)
Theorem duration_fields_keep_whole_minutes :
  (forall minutes, secondsToMinutes (minutesToSeconds (Some minutes)) = minutes) /\
  (forall minutes,
     fieldValue (minutesToSeconds (Some minutes)) =
       if minutes =? 0 then None else Some minutes) /\
  minutesToSeconds None = 0 /\
  fieldValue (minutesToSeconds None) = None /\
  (forall seconds,
     let kept := minutesToSeconds (Some (secondsToMinutes seconds)) in
     kept = seconds - seconds mod 60 /\ kept <= seconds < kept + 60).
Proof.
  unfold fieldValue, secondsToMinutes, minutesToSeconds.
  split; [intros; apply Z.div_mul; lia|].
  split; [intros; rewrite Z.div_mul by lia; reflexivity|].
  split; [reflexivity|]. split; [reflexivity|].
  intros seconds. cbv zeta.
  pose proof (Z.div_mod seconds 60 ltac:(lia)).
  pose proof (Z.mod_pos_bound seconds 60 ltac:(lia)). lia.
Qed.

(** *** Saving the form *)

Lemma edit_keeps_darkMode formState e : darkMode (edit formState e) = darkMode formState.
Proof.
  destruct e as [minutes | minutes | name checked]; simpl; trivial.
  unfold handleChange.
  destruct (String.eqb name "autoStartBreaks"); [reflexivity|].
  destruct (String.eqb name "autoStartWork"); [reflexivity|].
  destruct (String.eqb name "notifications"); reflexivity.
Qed.

Lemma edits_keep_darkMode edits : forall formState,
  darkMode (fold_left edit edits formState) = darkMode formState.
Proof.
  induction edits as [|e edits IH]; intros formState; simpl; [reflexivity|].
  rewrite IH. apply edit_keeps_darkMode.
Qed.

Lemma step_settings_only st now newSettings :
  (activeTab st <> timer) ->
  step st now (UpdateSettings newSettings) =
    applyUpdate st (setSettings (fun _ => withUserId newSettings (userId st))).
Proof.
  intros Htab. unfold step, handle, updateSettings. cbn [commit fold_left].
  apply runEffects_other_tab. exact Htab.
Qed.

Lemma step_toggle_other_tab st now :
  activeTab st <> timer ->
  settings (step st now ToggleDarkMode) =
    {| workDuration := workDuration (settings st);
       breakDuration := breakDuration (settings st);
       autoStartBreaks := autoStartBreaks (settings st);
       autoStartWork := autoStartWork (settings st);
       notifications := notifications (settings st);
       darkMode := negb (darkMode (settings st));
       settingsUserId := settingsUserId (settings st) |} /\
  activeTab (step st now ToggleDarkMode) = activeTab st /\
  userId (step st now ToggleDarkMode) = userId st.
Proof.
  intros Htab. unfold step, handle, toggleDarkMode. cbn [commit fold_left].
  rewrite runEffects_other_tab by exact Htab. repeat split.
Qed.

(** X19. The form works on the copy of the settings it took when it was
    shown. Toggling dark mode (the button in the header) while the form is
    open changes the settings and not the copy, so saving the form
    afterwards, whatever was edited in it, puts dark mode back to what it
    was when the form was shown. *)
Theorem saving_the_form_undoes_a_dark_mode_toggle :
  forall st edits t1 t2,
    activeTab st = settingsTab ->
    let formState := fold_left edit edits (formOnMount (settings st)) in
    let toggled := step st t1 ToggleDarkMode in
    let saved := step toggled t2 (UpdateSettings formState) in
    darkMode (settings toggled) = negb (darkMode (settings st)) /\
    darkMode (settings saved) = darkMode (settings st) /\
    settings saved = withUserId formState (userId st).
Proof.
  intros st edits t1 t2 Htab formState toggled saved.
  assert (Hother : activeTab st <> timer) by (rewrite Htab; discriminate).
  destruct (step_toggle_other_tab st t1 Hother) as (Hsettings & Htab' & Hid).
  fold toggled in Hsettings, Htab', Hid.
  split; [rewrite Hsettings; reflexivity|].
  unfold saved. rewrite step_settings_only by (rewrite Htab'; exact Hother).
  cbn [settings applyUpdate]. rewrite Hid. split; [|reflexivity].
  cbn [darkMode withUserId]. unfold formState. apply edits_keep_darkMode.
Qed.

Lemma saving_the_form_undoes_a_dark_mode_toggle_witness :
  activeTab settingsOpen = settingsTab /\
  darkMode (settings (step settingsOpen 100 ToggleDarkMode)) = true /\
  darkMode (settings (step (step settingsOpen 100 ToggleDarkMode) 200
                        (UpdateSettings
                           (edit (formOnMount (settings settingsOpen))
                                 (TypeWorkMinutes (Some 50)))))) = false.
Proof.
  pose proof (saving_the_form_undoes_a_dark_mode_toggle settingsOpen
                [TypeWorkMinutes (Some 50)] 100 200 eq_refl) as (Htoggled & Hsaved & _).
  split; [reflexivity|]. split; [exact Htoggled | exact Hsaved].
Defined.

(** X20. An emptied work field is saved as a work duration of 0 (the field
    shows empty again), and from then on a work session is completed in the
    very step that starts it: starting on the timer view persists an entry
    of duration 0 and leaves the machine at rest (automatic breaks off). *)
Theorem emptied_work_field_ends_sessions_at_once :
  forall st t1 t2 t3,
    atRest st ->
    activeTab st = settingsTab ->
    autoStartBreaks (settings st) = false ->
    let formState := edit (formOnMount (settings st)) (TypeWorkMinutes None) in
    workDuration formState = 0 /\
    fieldValue (workDuration formState) = None /\
    run st [(t1, UpdateSettings formState); (t2, SelectTab timer); (t3, Start)] =
      mkState timer false None (userId st)
              (timeEntries st ++
               [{| id := t3;
                   startTime := t3;
                   endTime := Some t3;
                   duration := 0;
                   type := "work";
                   notes := "";
                   Types.userId := Some (userId st) |}])
              0 (withUserId formState (userId st)).
Proof.
  intros st t1 t2 t3 (Hsession & Hrun & Hzero) Htab Hbreaks formState.
  split; [reflexivity|]. split; [reflexivity|].
  cbn [run fold_left fst snd].
  rewrite step_settings_only by (rewrite Htab; discriminate).
  destruct st as [tab run0 current uid entries elapsed conf]; simpl in *. subst.
  unfold step at 2, handle. cbn [commit fold_left applyUpdate].
  cbn [activeTab isRunning currentSession userId timeEntries elapsedTime settings].
  rewrite runEffects_not_running by reflexivity.
  rewrite start_with_zero_work_duration;
    [reflexivity | repeat split | reflexivity | simpl; lia | exact Hbreaks].
Qed.

Lemma emptied_work_field_ends_sessions_at_once_witness :
  atRest settingsOpen /\
  activeTab settingsOpen = settingsTab /\
  autoStartBreaks (settings settingsOpen) = false /\
  timeEntries
    (run settingsOpen
         [(100, UpdateSettings (edit (formOnMount (settings settingsOpen))
                                     (TypeWorkMinutes None)));
          (200, SelectTab timer); (300, Start)]) =
    [finalize (newEntry settingsOpen 300 "work") 300 0].
Proof.
  assert (Hrest : atRest settingsOpen) by (repeat split).
  split; [exact Hrest|]. split; [reflexivity|]. split; [reflexivity|].
  exact (f_equal timeEntries
           (proj2 (proj2 (emptied_work_field_ends_sessions_at_once settingsOpen 100 200 300
                            Hrest eq_refl eq_refl)))).
Defined.

(** *** The notes box *)

(** X21. The notes box is not emptied when a session ends. After notes were
    typed in one session and that session was stopped, the next session
    starts with empty notes while the box still shows the old text: unless
    the user types again, the text on the screen is not what is saved with
    the new session. *)
Theorem notes_box_outlives_the_session :
  forall st typed t0 t1 t2 t3,
    atRest st ->
    activeTab st = timer ->
    0 < workDuration (settings st) ->
    let view := actAll ("", st)
                  [(t0, Machine Start); (t1, TypeNotes typed);
                   (t2, Machine Stop); (t3, Machine Start)] in
    fst view = typed /\
    currentSession (snd view) = Some (newEntry st t3 "work") /\
    notes (newEntry st t3 "work") = "" /\
    timeEntries (snd view) =
      timeEntries st ++
      [{| id := t0;
          startTime := t0;
          endTime := Some t2;
          duration := 0;
          type := "work";
          notes := typed;
          Types.userId := Some (userId st) |}].
Proof.
  intros st typed t0 t1 t2 t3 Hrest Htab Hpos.
  pose proof (step_start_at_rest st t0 Hrest (fun _ => Hpos)) as Hstart.
  destruct Hrest as (Hsession & Hrun & Hzero).
  destruct st as [tab run0 current uid entries elapsed conf]; simpl in *. subst.
  unfold actAll. cbn [fold_left fst snd act].
  rewrite Hstart. cbn [mounted hasSession activeTab currentSession applyUpdate andb].
  assert (Hnote : step (mkState timer true (Some (newEntry (mkState timer false None uid entries 0 conf) t0 "work")) uid entries 0 conf)
                       t1 (AddNote typed) =
                  mkState timer true
                    (Some (withNotes (newEntry (mkState timer false None uid entries 0 conf) t0 "work") typed))
                    uid entries 0 conf).
  { unfold step, handle, addNoteToCurrentSession. cbn [currentSession commit fold_left applyUpdate].
    apply (runEffects_below_target _ _ _
             (withNotes (newEntry (mkState timer false None uid entries 0 conf) t0 "work") typed));
      [reflexivity | exact Hpos]. }
  cbn [isRunning userId timeEntries elapsedTime settings] in *.
  rewrite Hnote. cbn [act mounted activeTab andb].
  rewrite (step_stop _ _ (withNotes (newEntry (mkState timer false None uid entries 0 conf) t0 "work") typed))
    by reflexivity.
  cbn [act activeTab isRunning currentSession userId timeEntries elapsedTime settings
       mounted andb].
  rewrite step_start_at_rest; [|repeat split | intros _; exact Hpos].
  repeat split.
Qed.

Lemma notes_box_outlives_the_session_witness :
  atRest freshState /\
  0 < workDuration (settings freshState) /\
  fst (actAll ("", freshState)
         [(0, Machine Start); (100, TypeNotes "draft");
          (200, Machine Stop); (300, Machine Start)]) = "draft" /\
  currentSession
    (snd (actAll ("", freshState)
            [(0, Machine Start); (100, TypeNotes "draft");
             (200, Machine Stop); (300, Machine Start)])) =
    Some (newEntry freshState 300 "work").
Proof.
  assert (Hrest : atRest freshState) by (repeat split).
  assert (Hpos : 0 < workDuration (settings freshState)) by reflexivity.
  pose proof (notes_box_outlives_the_session freshState "draft" 0 100 200 300
                Hrest eq_refl Hpos) as (Hbox & Hsession & _).
  split; [exact Hrest|]. split; [exact Hpos|]. split; [exact Hbox | exact Hsession].
Defined.

(** *** Disabled controls *)

(** X22. A control of the timer view is disabled only where its handler
    would change nothing: in every reachable state a disabled stop button,
    reset button or notes box stands for a step that leaves the state as it
    is. An enabled stop button always persists one more entry. *)
Theorem disabled_controls_would_change_nothing :
  forall init st now,
    isInitial init ->
    reachable init st ->
    (stopDisabled st = true -> step st now Stop = st) /\
    (resetDisabled st = true -> step st now Reset = st) /\
    (notesDisabled st = true -> forall note, step st now (AddNote note) = st) /\
    (stopDisabled st = false ->
     List.length (timeEntries (step st now Stop)) = S (List.length (timeEntries st))).
Proof.
  intros init st now Hinit Hreach.
  assert (Hinv : sessionInvariant st).
  { apply (reachable_preserves sessionInvariant init);
      auto using initial_sessionInvariant.
    apply step_preserves; [apply handle_sessionInvariant | apply effect_sessionInvariant]. }
  unfold stopDisabled, resetDisabled, notesDisabled, hasSession, sessionInvariant in *.
  destruct (currentSession st) as [session|] eqn:Hsession; simpl.
  - repeat split; try discriminate. intros _.
    rewrite (step_stop st now session Hsession). simpl.
    rewrite length_app. simpl. lia.
  - destruct Hinv as [Hrun Hzero].
    assert (Hstop : step st now Stop = st).
    { unfold step, handle, stopTimer. rewrite Hsession.
      apply runEffects_not_running, Hrun. }
    repeat split; try discriminate; intros _.
    + exact Hstop.
    + unfold step, handle, resetTimer.
      destruct st as [tab run0 current uid entries elapsed conf]; simpl in *. subst.
      destruct tab; reflexivity.
    + intros note. apply addNote_at_rest; assumption.
Qed.

Lemma disabled_controls_would_change_nothing_witness :
  isInitial freshState /\
  reachable freshState freshState /\
  resetDisabled freshState = true /\
  step freshState 0 Reset = freshState.
Proof.
  assert (Hinit : isInitial freshState)
    by (exists "u1", [], autoBreakSettings; reflexivity).
  assert (Hreach : reachable freshState freshState) by apply reachable_init.
  split; [exact Hinit|]. split; [exact Hreach|]. split; [reflexivity|].
  exact (proj1 (proj2 (disabled_controls_would_change_nothing freshState freshState 0
                         Hinit Hreach)) eq_refl).
Defined.

End ViewFacts.

(** ** Properties of the persistence in [localStorage] *)

Module StorageFacts.
Import Types JS Statistics App Timer Machine Samples Traces MachineFacts MachineMore.
Import Storage StorageSamples.

Lemma getItem_setItem_same key value ls : getItem (setItem key value ls) key = Some value.
Proof.
  induction ls as [|[k v] ls IH]; simpl; [rewrite String.eqb_refl; reflexivity|].
  destruct (String.eqb k key) eqn:Hk; simpl; rewrite Hk; [reflexivity | exact IH].
Qed.

Lemma getItem_setItem_other key value ls other :
  other <> key -> getItem (setItem key value ls) other = getItem ls other.
Proof.
  intros Hne. induction ls as [|[k v] ls IH]; simpl.
  - destruct (String.eqb_spec key other); [congruence | reflexivity].
  - destruct (String.eqb_spec k key) as [-> | Hk]; simpl.
    + destruct (String.eqb_spec key other); [congruence | reflexivity].
    + destruct (String.eqb k other); [reflexivity | exact IH].
Qed.

(** The three kinds of keys never coincide, and each owner has keys of
    its own. *)
Lemma keys_apart u u' :
  entriesKey u <> settingsKey u' /\
  entriesKey u <> "userId" /\
  settingsKey u <> "userId" /\
  (entriesKey u = entriesKey u' -> u = u') /\
  (settingsKey u = settingsKey u' -> u = u').
Proof.
  unfold entriesKey, settingsKey. simpl.
  repeat split; try discriminate; intros [= H]; exact H.
Qed.

Section PersistenceFacts.
Variable stringifyEntries : list TimeEntry -> string.
Variable stringifySettings : AppSettings -> string.
Variable parseEntries : string -> option (list TimeEntry).
Variable parseSettings : string -> option AppSettings.

Abbreviation mirrors := (Storage.mirrors stringifyEntries stringifySettings).
Abbreviation saveEffects := (Storage.saveEffects stringifyEntries stringifySettings).
Abbreviation handlerWrites := (Storage.handlerWrites stringifyEntries).
Abbreviation runEffectsStored := (Storage.runEffectsStored stringifyEntries stringifySettings).
Abbreviation stepStored := (Storage.stepStored stringifyEntries stringifySettings).
Abbreviation runStored := (Storage.runStored stringifyEntries stringifySettings).
Abbreviation mountEffects := (Storage.mountEffects stringifyEntries stringifySettings).
Abbreviation firstRender := (Storage.firstRender parseEntries parseSettings).

Lemma applyUpdate_userId st u : userId (applyUpdate st u) = userId st.
Proof. destruct u; reflexivity. Qed.

Lemma commit_userId queue : forall st, userId (commit st queue) = userId st.
Proof.
  induction queue as [|u queue IH]; intros st; [reflexivity|].
  unfold commit in *. simpl. rewrite IH. apply applyUpdate_userId.
Qed.

Lemma commit_keeps_entries queue : forall st,
  setsEntries queue = false -> timeEntries (commit st queue) = timeEntries st.
Proof.
  induction queue as [|u queue IH]; intros st Hsets; [reflexivity|].
  unfold commit in *. simpl in *. apply orb_false_elim in Hsets. destruct Hsets as [Hu Hq].
  rewrite IH by exact Hq. destruct u; try discriminate; reflexivity.
Qed.

Lemma commit_keeps_settings queue : forall st,
  setsSettings queue = false -> settings (commit st queue) = settings st.
Proof.
  induction queue as [|u queue IH]; intros st Hsets; [reflexivity|].
  unfold commit in *. simpl in *. apply orb_false_elim in Hsets. destruct Hsets as [Hu Hq].
  rewrite IH by exact Hq. destruct u; try discriminate; reflexivity.
Qed.

(** The saving effects after a render make the store mirror the state,
    whatever was written under the entries key in between. *)
Lemma saveEffects_mirrors queue st st' ls :
  userId st' = userId st ->
  (setsEntries queue = false -> timeEntries st' = timeEntries st) ->
  (setsSettings queue = false -> settings st' = settings st) ->
  getItem ls "userId" = Some (userId st) ->
  (setsEntries queue = false ->
   getItem ls (entriesKey (userId st)) = Some (stringifyEntries (timeEntries st))) ->
  getItem ls (settingsKey (userId st)) = Some (stringifySettings (settings st)) ->
  mirrors st' (saveEffects queue st' ls).
Proof.
  intros Hid Hentries Hsettings Huser Hstored1 Hstored2.
  destruct (keys_apart (userId st) (userId st)) as (Hes & Heu & Hsu & _).
  unfold Storage.mirrors, Storage.saveEffects, saveEntries, saveSettings. rewrite Hid.
  destruct (setsEntries queue); destruct (setsSettings queue);
    repeat split;
    rewrite ?getItem_setItem_same;
    repeat (rewrite getItem_setItem_other by congruence);
    rewrite ?getItem_setItem_same;
    rewrite ?Hentries, ?Hsettings by reflexivity; auto.
Qed.

Lemma saveEffects_commit_mirrors queue st ls :
  mirrors st ls -> mirrors (commit st queue) (saveEffects queue (commit st queue) ls).
Proof.
  intros (Huser & Hentries & Hsettings).
  apply (saveEffects_mirrors queue st); auto using commit_userId, commit_keeps_entries,
    commit_keeps_settings.
Qed.

Lemma runEffectsStored_mirrors fuel now : forall st ls,
  mirrors st ls ->
  mirrors (fst (runEffectsStored fuel now st ls)) (snd (runEffectsStored fuel now st ls)).
Proof.
  induction fuel as [|fuel IH]; intros st ls Hm; [exact Hm|].
  cbn [Storage.runEffectsStored]. destruct (activeTab st); trivial.
  destruct (completionEffect st now) as [|u q] eqn:Hq; trivial.
  apply IH. apply saveEffects_commit_mirrors, Hm.
Qed.

Lemma runEffectsStored_state fuel now : forall st ls,
  fst (runEffectsStored fuel now st ls) = runEffects fuel now st.
Proof.
  induction fuel as [|fuel IH]; intros st ls; [reflexivity|].
  cbn [Storage.runEffectsStored runEffects]. destruct (activeTab st); trivial.
  destruct (completionEffect st now) as [|u q]; [reflexivity|]. apply IH.
Qed.

Lemma stepStored_state st ls now e : fst (stepStored (st, ls) now e) = step st now e.
Proof. unfold Storage.stepStored, step. apply runEffectsStored_state. Qed.

Lemma stepStored_mirrors st ls now e :
  mirrors st ls ->
  mirrors (fst (stepStored (st, ls) now e)) (snd (stepStored (st, ls) now e)).
Proof.
  intros (Huser & Hentries & Hsettings). unfold Storage.stepStored.
  apply runEffectsStored_mirrors.
  destruct (keys_apart (userId st) (userId st)) as (Hes & Heu & Hsu & _).
  apply (saveEffects_mirrors _ st);
    auto using commit_userId, commit_keeps_entries, commit_keeps_settings.
  - destruct e as [| | | | | note | | tab' | conf' | | [|]]; trivial.
    simpl. rewrite getItem_setItem_other by congruence. exact Huser.
  - intros Hsets. destruct e as [| | | | | note | | tab' | conf' | | [|]]; trivial.
    discriminate.
  - destruct e as [| | | | | note | | tab' | conf' | | [|]]; trivial.
    simpl. rewrite getItem_setItem_other by congruence. exact Hsettings.
Qed.

Lemma runStored_state trace : forall st ls,
  fst (runStored (st, ls) trace) = run st trace.
Proof.
  induction trace as [|[t e] trace IH]; intros st ls; [reflexivity|].
  unfold Storage.runStored, run in *. cbn [fold_left fst snd].
  destruct (stepStored (st, ls) t e) as [st' ls'] eqn:Hstep.
  rewrite IH. f_equal. rewrite <- (stepStored_state st ls t e), Hstep. reflexivity.
Qed.

Lemma runStored_mirrors trace : forall st ls,
  mirrors st ls ->
  mirrors (fst (runStored (st, ls) trace)) (snd (runStored (st, ls) trace)).
Proof.
  induction trace as [|[t e] trace IH]; intros st ls Hm; [exact Hm|].
  unfold Storage.runStored in *. cbn [fold_left fst snd].
  pose proof (stepStored_mirrors st ls t e Hm) as Hstep.
  destruct (stepStored (st, ls) t e) as [st' ls']. apply IH, Hstep.
Qed.

Lemma firstRender_userId uuidv4 prefersDark ls st :
  firstRender uuidv4 prefersDark ls = Returned st -> userId st = initialUserId uuidv4 ls.
Proof.
  unfold Storage.firstRender.
  destruct (initialTimeEntries parseEntries _); [|discriminate].
  destruct (initialSettings parseSettings _ _ _); [|discriminate].
  intros [= <-]. reflexivity.
Qed.

Lemma mountEffects_mirrors uuidv4 ls st :
  userId st = initialUserId uuidv4 ls -> mirrors st (mountEffects st ls).
Proof.
  intros Hid.
  destruct (keys_apart (userId st) (userId st)) as (Hes & Heu & Hsu & _).
  unfold Storage.mirrors, Storage.mountEffects, saveSettings, saveEntries.
  repeat split.
  - rewrite !getItem_setItem_other by congruence.
    unfold saveUserId, initialUserId in *.
    destruct (getItem ls "userId") as [[|c rest]|] eqn:Hsaved;
      rewrite ?getItem_setItem_same, ?Hsaved; congruence.
  - rewrite getItem_setItem_other by congruence. apply getItem_setItem_same.
  - apply getItem_setItem_same.
Qed.

Lemma initialUserId_nonempty uuidv4 ls : uuidv4 <> "" -> initialUserId uuidv4 ls <> "".
Proof.
  intros Hne. unfold initialUserId.
  destruct (getItem ls "userId") as [[|c rest]|]; trivial; discriminate.
Qed.

Lemma run_userId trace : forall st, userId (run st trace) = userId st.
Proof.
  assert (Hstep : forall st now e, userId (step st now e) = userId st).
  { intros st now e. apply (step_preserves (fun s => userId s = userId st)); trivial.
    - intros s now' e' Hs. rewrite commit_userId. exact Hs.
    - intros s now' Hs. rewrite commit_userId. exact Hs. }
  induction trace as [|[t e] trace IH]; intros st; [reflexivity|].
  unfold run in *. cbn [fold_left fst snd]. rewrite IH. apply Hstep.
Qed.

(** X23. After the first render and whatever follows, the store mirrors the
    state: it holds the owner's id under 'userId', and the serialised entry
    list and settings under the owner's two keys. The current session and
    the elapsed time are written nowhere. *)
Theorem store_mirrors_state :
  forall uuidv4 prefersDark ls0 st0 trace,
    firstRender uuidv4 prefersDark ls0 = Returned st0 ->
    let final := runStored (st0, mountEffects st0 ls0) trace in
    fst final = run st0 trace /\
    getItem (snd final) "userId" = Some (userId (fst final)) /\
    getItem (snd final) (entriesKey (userId (fst final))) =
      Some (stringifyEntries (timeEntries (fst final))) /\
    getItem (snd final) (settingsKey (userId (fst final))) =
      Some (stringifySettings (settings (fst final))).
Proof.
  intros uuidv4 prefersDark ls0 st0 trace Hfirst final.
  split; [apply runStored_state|].
  apply runStored_mirrors, (mountEffects_mirrors uuidv4).
  eapply firstRender_userId, Hfirst.
Qed.

(** X24. Closing and opening the application again restores the owner, the
    entries and the settings, and nothing else: from the store left by any
    run, the first render reads the owner's id and parses the two texts that
    were written for the last entry list and the last settings; it starts
    with no session, nothing running, no elapsed time and the timer view, so
    a session in progress is lost. ([JSON.stringify] of an array or an
    object is never the empty string.) *)
Theorem restart_reads_back_what_was_saved :
  forall uuidv4 prefersDark ls0 st0 trace uuidv4' prefersDark',
    firstRender uuidv4 prefersDark ls0 = Returned st0 ->
    uuidv4 <> "" ->
    (forall entries, stringifyEntries entries <> "") ->
    (forall conf, stringifySettings conf <> "") ->
    let final := runStored (st0, mountEffects st0 ls0) trace in
    let st := fst final in
    firstRender uuidv4' prefersDark' (snd final) =
      match parseEntries (stringifyEntries (timeEntries st)),
            parseSettings (stringifySettings (settings st)) with
      | Some entries, Some conf => Returned (initialState (userId st) entries conf)
      | _, _ => Thrown
      end.
Proof.
  intros uuidv4 prefersDark ls0 st0 trace uuidv4' prefersDark' Hfirst Huuid HtextE HtextS
         final st.
  pose proof (firstRender_userId _ _ _ _ Hfirst) as Hid0.
  assert (Hm : mirrors st (snd final)).
  { apply runStored_mirrors, (mountEffects_mirrors uuidv4), Hid0. }
  destruct Hm as (Huser & Hentries & Hsettings).
  assert (Hid : userId st <> "").
  { unfold st, final. rewrite runStored_state, run_userId, Hid0.
    apply initialUserId_nonempty, Huuid. }
  unfold Storage.firstRender, initialUserId. rewrite Huser.
  destruct (userId st) as [|c rest] eqn:Hu; [congruence|]. rewrite <- Hu in *.
  rewrite Hentries, Hsettings.
  unfold initialTimeEntries, initialSettings, parseOr.
  specialize (HtextE (timeEntries st)). specialize (HtextS (settings st)).
  destruct (stringifyEntries (timeEntries st)) as [|c1 r1] eqn:H1; [congruence|].
  destruct (stringifySettings (settings st)) as [|c2 r2] eqn:H2; [congruence|].
  destruct (parseEntries (String c1 r1)); [|reflexivity].
  destruct (parseSettings (String c2 r2)); reflexivity.
Qed.

(** X25. A step writes under the owner's two keys only: every other key of
    the store, the stored user id and the records of other owners among
    them, keeps its value. *)
Theorem steps_write_only_the_owners_records :
  forall st ls now e key,
    key <> entriesKey (userId st) ->
    key <> settingsKey (userId st) ->
    getItem (snd (stepStored (st, ls) now e)) key = getItem ls key.
Proof.
  intros st ls now e key Hentries Hsettings.
  assert (Hsave : forall queue s l,
            userId s = userId st ->
            getItem (saveEffects queue s l) key = getItem l key).
  { intros queue s l Hs. unfold Storage.saveEffects, saveEntries, saveSettings. rewrite Hs.
    destruct (setsEntries queue); destruct (setsSettings queue);
      repeat (rewrite getItem_setItem_other by assumption); reflexivity. }
  assert (Hrun : forall fuel s l,
            userId s = userId st ->
            getItem (snd (runEffectsStored fuel now s l)) key = getItem l key).
  { induction fuel as [|fuel IH]; intros s l Hs; [reflexivity|].
    cbn [Storage.runEffectsStored]. destruct (activeTab s); trivial.
    destruct (completionEffect s now) as [|u q] eqn:Hq; trivial.
    cbv zeta. rewrite IH by (rewrite commit_userId; exact Hs).
    apply Hsave. rewrite commit_userId. exact Hs. }
  unfold Storage.stepStored. rewrite Hrun by apply commit_userId.
  rewrite Hsave by apply commit_userId.
  destruct e as [| | | | | note | | tab' | conf' | | [|]]; trivial.
  simpl. apply getItem_setItem_other. exact Hentries.
Qed.

End PersistenceFacts.

Lemma store_mirrors_state_witness :
  Storage.firstRender parseEmptyArrayOnly readSettings "u1" false [] = Returned firstVisit /\
  getItem (snd (Storage.runStored entriesText settingsText
                  (firstVisit, Storage.mountEffects entriesText settingsText firstVisit [])
                  visit))
          "timeEntries_u1" = Some "[]".
Proof.
  assert (Hfirst : Storage.firstRender parseEmptyArrayOnly readSettings "u1" false [] =
                   Returned firstVisit) by reflexivity.
  split; [exact Hfirst|].
  exact (proj1 (proj2 (proj2 (store_mirrors_state entriesText settingsText
                                parseEmptyArrayOnly readSettings
                                "u1" false [] firstVisit visit Hfirst)))).
Defined.

Lemma restart_reads_back_what_was_saved_witness :
  Storage.firstRender parseEmptyArrayOnly readSettings "u1" false [] = Returned firstVisit /\
  currentSession (run firstVisit visit) = Some (newEntry firstVisit 0 "work") /\
  elapsedTime (run firstVisit visit) = 3 /\
  Storage.firstRender parseEmptyArrayOnly readSettings "u2" true
    (snd (Storage.runStored entriesText settingsText
            (firstVisit, Storage.mountEffects entriesText settingsText firstVisit [])
            visit)) =
    Returned firstVisit.
Proof.
  assert (Hfirst : Storage.firstRender parseEmptyArrayOnly readSettings "u1" false [] =
                   Returned firstVisit) by reflexivity.
  assert (Huuid : "u1" <> "") by discriminate.
  assert (HtextE : forall entries, entriesText entries <> "")
    by (intros [|entry entries]; discriminate).
  assert (HtextS : forall conf, settingsText conf <> "")
    by (intros conf; unfold settingsText; destruct (darkMode conf); discriminate).
  split; [exact Hfirst|]. split; [reflexivity|]. split; [reflexivity|].
  exact (restart_reads_back_what_was_saved entriesText settingsText
           parseEmptyArrayOnly readSettings
           "u1" false [] firstVisit visit "u2" true Hfirst Huuid HtextE HtextS).
Defined.

Lemma steps_write_only_the_owners_records_witness :
  "timeEntries_u2" <> entriesKey (userId almostDone) /\
  "timeEntries_u2" <> settingsKey (userId almostDone) /\
  getItem (snd (Storage.stepStored entriesText settingsText
                  (almostDone, [("userId", "u1"); ("timeEntries_u2", "[...]")])
                  1500000 Tick))
          "timeEntries_u2" = Some "[...]".
Proof.
  assert (Hentries : "timeEntries_u2" <> entriesKey (userId almostDone)) by discriminate.
  assert (Hsettings : "timeEntries_u2" <> settingsKey (userId almostDone)) by discriminate.
  split; [exact Hentries|]. split; [exact Hsettings|].
  exact (steps_write_only_the_owners_records entriesText settingsText
           almostDone [("userId", "u1"); ("timeEntries_u2", "[...]")] 1500000 Tick
           "timeEntries_u2" Hentries Hsettings).
Defined.

End StorageFacts.
